(** * FounderPortal: a shallow embedding of [src/frontend/components/FounderPortal.tsx]

    The React component is modelled as explicit state passing: the values of
    its [useState] cells, the browser's [localStorage], and a log of the
    effects its handlers perform, threaded through a small state-and-exception
    monad.  JavaScript strings are sequences of UTF-16 code units; the values
    [JSON.parse] can hand to [setFounder] are the JSON value domain. *)

From Stdlib Require Import List NArith ZArith Bool Ascii String Lia.
Import ListNotations.

Set Implicit Arguments.
Set Warnings "-register-all".

Local Open Scope N_scope.

(** ** JavaScript strings *)

Module JsString.

(** A code unit of a JavaScript string (a 16-bit unsigned integer). *)
Definition code_unit := N.

Definition jsstring := list code_unit.

(** String literals of the source are ASCII; [js "abc"] is their code units. *)
Fixpoint js (s : string) : jsstring :=
  match s with
  | EmptyString => []
  | String a r => N_of_ascii a :: js r
  end.

Fixpoint eqb (a b : jsstring) : bool :=
  match a, b with
  | [], [] => true
  | x :: a', y :: b' => N.eqb x y && eqb a' b'
  | _, _ => false
  end.

(** ECMAScript WhiteSpace and LineTerminator code points: what
    [String.prototype.trim] strips.  All of them are in the basic
    multilingual plane, so trimming works code unit by code unit. *)
Definition is_white_space (c : code_unit) : bool :=
  ((9 <=? c) && (c <=? 13))          (* TAB, LF, VT, FF, CR *)
  || (c =? 32)                        (* SPACE *)
  || (c =? 160)                       (* NO-BREAK SPACE *)
  || (c =? 5760)                      (* U+1680 *)
  || ((8192 <=? c) && (c <=? 8202))   (* U+2000 .. U+200A *)
  || (c =? 8232) || (c =? 8233)       (* LINE / PARAGRAPH SEPARATOR *)
  || (c =? 8239)                      (* U+202F *)
  || (c =? 8287)                      (* U+205F *)
  || (c =? 12288)                     (* U+3000 *)
  || (c =? 65279).                    (* U+FEFF *)

Fixpoint trimStart (s : jsstring) : jsstring :=
  match s with
  | [] => []
  | c :: r => if is_white_space c then trimStart r else s
  end.

Definition trimEnd (s : jsstring) : jsstring := rev (trimStart (rev s)).

(** [String.prototype.trim] *)
Definition trim (s : jsstring) : jsstring := trimEnd (trimStart s).

(** A string is blank when it is empty or made of white space only. *)
Definition blank (s : jsstring) : bool := forallb is_white_space s.

(** ToBoolean on a string: the empty string is the only falsy one. *)
Definition truthy (s : jsstring) : bool :=
  match s with [] => false | _ :: _ => true end.

(** [needle] occurs in [hay] as a contiguous substring. *)
Definition substring_of (needle hay : jsstring) : Prop :=
  exists pre post, hay = pre ++ needle ++ post.

Fixpoint starts_with (p s : jsstring) : bool :=
  match p, s with
  | [], _ => true
  | x :: p', y :: s' => N.eqb x y && starts_with p' s'
  | _ :: _, [] => false
  end.

(** [String.prototype.includes] *)
Fixpoint includes (hay needle : jsstring) : bool :=
  starts_with needle hay ||
  match hay with
  | [] => false
  | _ :: r => includes r needle
  end.

End JsString.
Import JsString.

(** ** JSON values, [JSON.parse] and [JSON.stringify] *)

Module Json.

(** The values [JSON.parse] can produce, and [undefined].  A number keeps
    the text of its literal: its IEEE-754 value is outside this model.
    An object lists its own properties in creation order. *)
Inductive JsValue : Type :=
| JUndefined
| JNull
| JBool (b : bool)
| JNumber (literal : jsstring)
| JString (s : jsstring)
| JArray (elements : list JsValue)
| JObject (props : list (jsstring * JsValue)).

Fixpoint lookup (k : jsstring) (props : list (jsstring * JsValue))
  : option JsValue :=
  match props with
  | [] => None
  | (k', v) :: r => if JsString.eqb k k' then Some v else lookup k r
  end.

(** CreateDataProperty: a repeated key keeps its place and takes the new
    value. *)
Fixpoint define (k : jsstring) (v : JsValue)
         (props : list (jsstring * JsValue)) : list (jsstring * JsValue) :=
  match props with
  | [] => [(k, v)]
  | (k', v') :: r =>
      if JsString.eqb k k' then (k', v) :: r else (k', v') :: define k v r
  end.

(** [v.k] (or [v?.k]) for a property name [k] that no prototype defines,
    such as the fields of a profile: the own property of an object, and
    [undefined] on every other value. *)
Definition get (v : JsValue) (k : jsstring) : JsValue :=
  match v with
  | JObject props =>
      match lookup k props with Some x => x | None => JUndefined end
  | _ => JUndefined
  end.

(** [k in v], for own properties of an object. *)
Definition has_own (v : JsValue) (k : jsstring) : bool :=
  match v with
  | JObject props =>
      match lookup k props with Some _ => true | None => false end
  | _ => false
  end.

Inductive ParseResult (A : Type) : Type :=
| Parsed (a : A) (rest : jsstring)
| SyntaxError
| OutOfFuel.
Arguments SyntaxError {A}.
Arguments OutOfFuel {A}.

Definition is_json_ws (c : code_unit) : bool :=
  (c =? 32) || (c =? 9) || (c =? 10) || (c =? 13).

Fixpoint skip_ws (s : jsstring) : jsstring :=
  match s with
  | [] => []
  | c :: r => if is_json_ws c then skip_ws r else s
  end.

Definition is_digit (c : code_unit) : bool := (48 <=? c) && (c <=? 57).

Definition hex_value (c : code_unit) : option N :=
  if (48 <=? c) && (c <=? 57) then Some (c - 48)
  else if (97 <=? c) && (c <=? 102) then Some (c - 87)
  else if (65 <=? c) && (c <=? 70) then Some (c - 55)
  else None.

Definition hex4 (a b c d : code_unit) : option code_unit :=
  match hex_value a, hex_value b, hex_value c, hex_value d with
  | Some x, Some y, Some z, Some w => Some (4096 * x + 256 * y + 16 * z + w)
  | _, _, _, _ => None
  end.

(** The character an escape letter stands for: quote, backslash, slash,
    b, f, n, r, t. *)
Definition simple_escape (e : code_unit) : option code_unit :=
  if e =? 34 then Some 34
  else if e =? 92 then Some 92
  else if e =? 47 then Some 47
  else if e =? 98 then Some 8
  else if e =? 102 then Some 12
  else if e =? 110 then Some 10
  else if e =? 114 then Some 13
  else if e =? 116 then Some 9
  else None.

(** A JSON string after its opening quote, up to the closing one. *)
Fixpoint parse_string_body (s : jsstring) : ParseResult jsstring :=
  match s with
  | [] => SyntaxError
  | c :: r =>
      if c =? 34 then Parsed [] r
      else if c =? 92 then
        match r with
        | [] => SyntaxError
        | e :: r1 =>
            if e =? 117 then
              match r1 with
              | h1 :: h2 :: h3 :: h4 :: r2 =>
                  match hex4 h1 h2 h3 h4 with
                  | Some u =>
                      match parse_string_body r2 with
                      | Parsed str rest => Parsed (u :: str) rest
                      | other => other
                      end
                  | None => SyntaxError
                  end
              | _ => SyntaxError
              end
            else
              match simple_escape e with
              | Some u =>
                  match parse_string_body r1 with
                  | Parsed str rest => Parsed (u :: str) rest
                  | other => other
                  end
              | None => SyntaxError
              end
        end
      else if c <? 32 then SyntaxError
      else
        match parse_string_body r with
        | Parsed str rest => Parsed (c :: str) rest
        | other => other
        end
  end.

Fixpoint span_digits (s : jsstring) : jsstring * jsstring :=
  match s with
  | [] => ([], [])
  | c :: r =>
      if is_digit c then let (d, rest) := span_digits r in (c :: d, rest)
      else ([], s)
  end.

Definition parse_int (s : jsstring) : option (jsstring * jsstring) :=
  match s with
  | [] => None
  | c :: r =>
      if c =? 48 then Some ([c], r)
      else if is_digit c then
        let (d, rest) := span_digits r in Some (c :: d, rest)
      else None
  end.

Definition parse_frac (s : jsstring) : option (jsstring * jsstring) :=
  match s with
  | [] => Some ([], [])
  | c :: r =>
      if c =? 46 then
        match span_digits r with
        | ([], _) => None
        | (d, rest) => Some (c :: d, rest)
        end
      else Some ([], s)
  end.

Definition parse_exp (s : jsstring) : option (jsstring * jsstring) :=
  match s with
  | [] => Some ([], [])
  | c :: r =>
      if (c =? 101) || (c =? 69) then
        let (sign, r1) :=
          match r with
          | x :: r' => if (x =? 43) || (x =? 45) then ([x], r') else ([], r)
          | [] => ([], [])
          end in
        match span_digits r1 with
        | ([], _) => None
        | (d, rest) => Some (c :: sign ++ d, rest)
        end
      else Some ([], s)
  end.

(** A JSON number: an optional minus sign; an integer part, which is 0
    or starts with a non-zero digit; an optional fraction, a dot and at
    least one digit; an optional exponent, e or E, an optional sign and at
    least one digit. *)
Definition parse_number (s : jsstring) : ParseResult JsValue :=
  let (sign, s1) :=
    match s with
    | c :: r => if c =? 45 then ([c], r) else ([], s)
    | [] => ([], [])
    end in
  match parse_int s1 with
  | None => SyntaxError
  | Some (i, s2) =>
      match parse_frac s2 with
      | None => SyntaxError
      | Some (f, s3) =>
          match parse_exp s3 with
          | None => SyntaxError
          | Some (e, s4) => Parsed (JNumber (sign ++ i ++ f ++ e)) s4
          end
      end
  end.

Definition parse_keyword (kw : string) (v : JsValue) (s : jsstring)
  : ParseResult JsValue :=
  if starts_with (js kw) s
  then Parsed v (skipn (String.length kw) s)
  else SyntaxError.

Fixpoint parse_value (fuel : nat) (s : jsstring) : ParseResult JsValue :=
  match fuel with
  | O => OutOfFuel
  | S f =>
      match skip_ws s with
      | [] => SyntaxError
      | c :: r =>
          if c =? 123 then                         (* { *)
            match skip_ws r with
            | [] => SyntaxError
            | c' :: r' =>
                if c' =? 125 then Parsed (JObject []) r'
                else parse_members f (c' :: r') []
            end
          else if c =? 91 then                     (* [ *)
            match skip_ws r with
            | [] => SyntaxError
            | c' :: r' =>
                if c' =? 93 then Parsed (JArray []) r'
                else parse_elements f (c' :: r') []
            end
          else if c =? 34 then
            match parse_string_body r with
            | Parsed str rest => Parsed (JString str) rest
            | SyntaxError => SyntaxError
            | OutOfFuel => OutOfFuel
            end
          else if c =? 116 then parse_keyword "true" (JBool true) (c :: r)
          else if c =? 102 then parse_keyword "false" (JBool false) (c :: r)
          else if c =? 110 then parse_keyword "null" JNull (c :: r)
          else parse_number (c :: r)
      end
  end

(** The elements of an array after [[] or a comma; [acc] holds the
    elements read so far, last first. *)
with parse_elements (fuel : nat) (s : jsstring) (acc : list JsValue)
  : ParseResult JsValue :=
  match fuel with
  | O => OutOfFuel
  | S f =>
      match parse_value f s with
      | Parsed v rest =>
          match skip_ws rest with
          | [] => SyntaxError
          | c :: r =>
              if c =? 44 then parse_elements f r (v :: acc)
              else if c =? 93 then Parsed (JArray (rev (v :: acc))) r
              else SyntaxError
          end
      | other => other
      end
  end

(** The members of an object after [{] or a comma. *)
with parse_members (fuel : nat) (s : jsstring)
                   (acc : list (jsstring * JsValue))
  : ParseResult JsValue :=
  match fuel with
  | O => OutOfFuel
  | S f =>
      match skip_ws s with
      | [] => SyntaxError
      | c :: r =>
          if c =? 34 then
            match parse_string_body r with
            | Parsed k rest =>
                match skip_ws rest with
                | [] => SyntaxError
                | c2 :: r2 =>
                    if c2 =? 58 then
                      match parse_value f r2 with
                      | Parsed v rest2 =>
                          match skip_ws rest2 with
                          | [] => SyntaxError
                          | c3 :: r3 =>
                              if c3 =? 44
                              then parse_members f r3 (define k v acc)
                              else if c3 =? 125
                              then Parsed (JObject (define k v acc)) r3
                              else SyntaxError
                          end
                      | other => other
                      end
                    else SyntaxError
                end
            | SyntaxError => SyntaxError
            | OutOfFuel => OutOfFuel
            end
          else SyntaxError
      end
  end.

(** [JSON.parse]: [None] stands for the SyntaxError it throws.  Every call
    of the parser uses up at least one character for two units of fuel, so
    the fuel given here is never exhausted (see [parse_value_fuel]). *)
Definition JSON_parse (text : jsstring) : option JsValue :=
  match parse_value (2 * List.length text + 2) text with
  | Parsed v rest =>
      match skip_ws rest with
      | [] => Some v
      | _ :: _ => None
      end
  | _ => None
  end.

(** *** Serialisation *)

Definition hex_digit (n : N) : code_unit :=
  if n <? 10 then 48 + n else 87 + n.

(** UnicodeEscape: backslash, [u] and four lower-case hexadecimal digits. *)
Definition unicode_escape (c : code_unit) : jsstring :=
  [92; 117; hex_digit ((c / 4096) mod 16); hex_digit ((c / 256) mod 16);
   hex_digit ((c / 16) mod 16); hex_digit (c mod 16)].

Definition is_high_surrogate (c : code_unit) : bool :=
  (55296 <=? c) && (c <=? 56319).

Definition is_low_surrogate (c : code_unit) : bool :=
  (56320 <=? c) && (c <=? 57343).

(** The characters of QuoteJSONString between the quotes: the short
    escapes, [\uXXXX] for the other control characters and for lone
    surrogates, everything else (surrogate pairs included) as it is. *)
Fixpoint quote_chars (s : jsstring) : jsstring :=
  match s with
  | [] => []
  | c :: r =>
      if c =? 8 then 92 :: 98 :: quote_chars r
      else if c =? 9 then 92 :: 116 :: quote_chars r
      else if c =? 10 then 92 :: 110 :: quote_chars r
      else if c =? 12 then 92 :: 102 :: quote_chars r
      else if c =? 13 then 92 :: 114 :: quote_chars r
      else if c =? 34 then 92 :: 34 :: quote_chars r
      else if c =? 92 then 92 :: 92 :: quote_chars r
      else if c <? 32 then unicode_escape c ++ quote_chars r
      else if is_high_surrogate c then
        match r with
        | d :: r' =>
            if is_low_surrogate d then c :: d :: quote_chars r'
            else unicode_escape c ++ quote_chars r
        | [] => unicode_escape c
        end
      else if is_low_surrogate c then unicode_escape c ++ quote_chars r
      else c :: quote_chars r
  end.

Definition QuoteJSONString (s : jsstring) : jsstring :=
  34 :: quote_chars s ++ [34].

(** The members of SerializeJSONObject for an object whose property values
    are strings or [undefined] ([None]): a property whose value is
    [undefined] is left out, the others are joined by commas. *)
Fixpoint serialize_members (props : list (jsstring * option jsstring))
  : list jsstring :=
  match props with
  | [] => []
  | (_, None) :: r => serialize_members r
  | (k, Some v) :: r =>
      (QuoteJSONString k ++ 58 :: QuoteJSONString v) :: serialize_members r
  end.

Fixpoint join_commas (parts : list jsstring) : jsstring :=
  match parts with
  | [] => []
  | [p] => p
  | p :: r => p ++ 44 :: join_commas r
  end.

(** [JSON.stringify] on such an object, without indentation. *)
Definition JSON_stringify (props : list (jsstring * option jsstring))
  : jsstring :=
  123 :: join_commas (serialize_members props) ++ [125].

End Json.
Import Json.

(** ** The data of the component *)

(** [type FounderProfile]: [website] is optional, [None] is [undefined]. *)
Module Founder.
Record FounderProfile : Type := {
  id : jsstring;
  name : jsstring;
  company : jsstring;
  email : jsstring;
  website : option jsstring
}.

(** The own properties of the object literal built by [handleSignup], in
    the order it lists them. *)
Definition props (p : FounderProfile) : list (jsstring * option jsstring) :=
  [ (js "id", Some (id p)); (js "name", Some (name p));
    (js "company", Some (company p)); (js "email", Some (email p));
    (js "website", website p) ].

(** The profile as a JavaScript value: the object [setFounder] receives. *)
Definition value (p : FounderProfile) : JsValue :=
  JObject (map (fun kv : jsstring * option jsstring =>
                  (fst kv, match snd kv with
                           | Some s => JString s
                           | None => JUndefined
                           end))
               (props p)).
End Founder.

(** [type StudentCandidate] *)
Module Student.
Record StudentCandidate : Type := {
  id : jsstring;
  name : jsstring;
  role : jsstring;
  skills : list jsstring;
  progressPercentage : N;
  projectsCompleted : N;
  lastActive : jsstring;
  contactEmail : jsstring
}.
End Student.

(** The state cell [form] *)
Module FormState.
Record Form : Type := {
  name : jsstring;
  company : jsstring;
  email : jsstring;
  website : jsstring
}.

Definition empty : Form :=
  {| name := []; company := []; email := []; website := [] |}.
End FormState.

Abbreviation FounderProfile := Founder.FounderProfile.
Abbreviation StudentCandidate := Student.StudentCandidate.
Abbreviation Form := FormState.Form.

(** Modelled from the spec: the authentication context ([useAuth], in
    [../contexts/AuthContext]) is not part of the sources.  The component
    reads [user?.id] only: [user] is absent or carries an identifier string. *)
Record AuthUser : Type := { user_id : jsstring }.

(** The literal list of the mount effect. *)
Definition mock : list StudentCandidate :=
  [ {| Student.id := js "u1";
       Student.name := js "Aarav Sharma";
       Student.role := js "Frontend Developer";
       Student.skills := [js "React"; js "TypeScript"; js "Tailwind"];
       Student.progressPercentage := 78;
       Student.projectsCompleted := 5;
       Student.lastActive := js "2h ago";
       Student.contactEmail := js "aarav@example.com" |};
    {| Student.id := js "u2";
       Student.name := js "Zoya Khan";
       Student.role := js "Fullstack Developer";
       Student.skills := [js "Node.js"; js "PostgreSQL"; js "React"];
       Student.progressPercentage := 91;
       Student.projectsCompleted := 8;
       Student.lastActive := js "1d ago";
       Student.contactEmail := js "zoya@example.com" |};
    {| Student.id := js "u3";
       Student.name := js "Kabir Patel";
       Student.role := js "Data Engineer";
       Student.skills := [js "Python"; js "Airflow"; js "SQL"];
       Student.progressPercentage := 64;
       Student.projectsCompleted := 3;
       Student.lastActive := js "5h ago";
       Student.contactEmail := js "kabir@example.com" |} ].

(** ** [localStorage] *)

Module Storage.
(** The stored items, and the room the browser gives the origin: [quota]
    bounds the number of code units of all keys and values together
    ([None]: no bound). *)
Record Storage : Type := {
  items : list (jsstring * jsstring);
  quota : option nat
}.

Fixpoint lookup (k : jsstring) (l : list (jsstring * jsstring))
  : option jsstring :=
  match l with
  | [] => None
  | (k', v) :: r => if JsString.eqb k k' then Some v else lookup k r
  end.

Fixpoint update (k v : jsstring) (l : list (jsstring * jsstring))
  : list (jsstring * jsstring) :=
  match l with
  | [] => [(k, v)]
  | (k', v') :: r =>
      if JsString.eqb k k' then (k', v) :: r else (k', v') :: update k v r
  end.

Fixpoint size (l : list (jsstring * jsstring)) : nat :=
  match l with
  | [] => O
  | (k, v) :: r => (List.length k + List.length v + size r)%nat
  end.

(** [getItem]: [None] is the [null] of a missing key. *)
Definition getItem (st : Storage) (k : jsstring) : option jsstring :=
  lookup k (items st).

(** [setItem]: [None] stands for the QuotaExceededError thrown when the
    new contents do not fit. *)
Definition setItem (st : Storage) (k v : jsstring) : option Storage :=
  let items' := update k v (items st) in
  match quota st with
  | Some q =>
      if (size items' <=? q)%nat
      then Some {| items := items'; quota := quota st |}
      else None
  | None => Some {| items := items'; quota := quota st |}
  end.

Definition empty : Storage := {| items := []; quota := None |}.
End Storage.
Abbreviation Storage := Storage.Storage.

Definition PROFILE_KEY : jsstring := js "psyduck_founder_profile".

(** ** Effects, and the monad the handlers run in *)

Inductive Exn : Type :=
| SyntaxError_thrown        (* JSON.parse on malformed text *)
| QuotaExceededError        (* localStorage.setItem on a full store *)
| TypeError_thrown.         (* ToString on an object that has no primitive *)

(** What a handler does to the world outside its return value, in order. *)
Inductive Effect : Type :=
| PreventDefault
| StorageGetItem (key : jsstring)
| StorageSetItem (key value : jsstring)
| SetFounder (v : JsValue)
| SetForm (f : Form)
| SetStudents (l : list StudentCandidate)
| SetIsSubmitting (b : bool)
| Navigate (href : jsstring)          (* window.location.href = ... *)
| Alert (message : jsstring).

(** The [useState] cells of the component, the browser's store, and the
    effects performed so far (oldest first). *)
Record World : Type := {
  founder : JsValue;
  form : Form;
  students : list StudentCandidate;
  isSubmitting : bool;
  localStorage : Storage;
  log : list Effect
}.

Inductive Completion (A : Type) : Type :=
| Normal (a : A)
| Throw (e : Exn).
Arguments Throw {A} e.

Definition M (A : Type) : Type := World -> Completion A * World.

Definition ret {A : Type} (a : A) : M A := fun w => (Normal a, w).

Definition bind {A B : Type} (m : M A) (k : A -> M B) : M B :=
  fun w =>
    match m w with
    | (Normal a, w') => k a w'
    | (Throw e, w') => (Throw e, w')
    end.

Definition throw {A : Type} (e : Exn) : M A := fun w => (Throw e, w).

(** [try { body } finally { cleanup }]: the cleanup runs whatever the body
    did; the body's completion stands unless the cleanup itself throws. *)
Definition try_finally {A : Type} (body : M A) (cleanup : M unit) : M A :=
  fun w =>
    match body w with
    | (r, w') =>
        match cleanup w' with
        | (Normal _, w'') => (r, w'')
        | (Throw e, w'') => (Throw e, w'')
        end
    end.

Declare Scope js_scope.
Delimit Scope js_scope with M.
Notation "x <- m ;; k" := (bind m (fun x => k))
  (at level 61, m at next level, right associativity) : js_scope.
Notation "m ;; k" := (bind m (fun _ => k))
  (at level 61, right associativity) : js_scope.
Local Open Scope js_scope.

Definition emit (e : Effect) (w : World) : World :=
  {| founder := founder w; form := form w; students := students w;
     isSubmitting := isSubmitting w; localStorage := localStorage w;
     log := log w ++ [e] |}.

Definition read : M World := fun w => (Normal w, w).

Definition preventDefault : M unit :=
  fun w => (Normal tt, emit PreventDefault w).

Definition setFounder (v : JsValue) : M unit :=
  fun w => (Normal tt,
            emit (SetFounder v)
              {| founder := v; form := form w; students := students w;
                 isSubmitting := isSubmitting w;
                 localStorage := localStorage w; log := log w |}).

Definition setForm (f : Form) : M unit :=
  fun w => (Normal tt,
            emit (SetForm f)
              {| founder := founder w; form := f; students := students w;
                 isSubmitting := isSubmitting w;
                 localStorage := localStorage w; log := log w |}).

Definition setStudents (l : list StudentCandidate) : M unit :=
  fun w => (Normal tt,
            emit (SetStudents l)
              {| founder := founder w; form := form w; students := l;
                 isSubmitting := isSubmitting w;
                 localStorage := localStorage w; log := log w |}).

Definition setIsSubmitting (b : bool) : M unit :=
  fun w => (Normal tt,
            emit (SetIsSubmitting b)
              {| founder := founder w; form := form w; students := students w;
                 isSubmitting := b;
                 localStorage := localStorage w; log := log w |}).

Definition localStorage_getItem (k : jsstring) : M (option jsstring) :=
  fun w => (Normal (Storage.getItem (localStorage w) k),
            emit (StorageGetItem k) w).

Definition localStorage_setItem (k v : jsstring) : M unit :=
  fun w =>
    match Storage.setItem (localStorage w) k v with
    | Some st' =>
        (Normal tt,
         emit (StorageSetItem k v)
           {| founder := founder w; form := form w; students := students w;
              isSubmitting := isSubmitting w;
              localStorage := st'; log := log w |})
    | None => (Throw QuotaExceededError, emit (StorageSetItem k v) w)
    end.

Definition JSON_parse_or_throw (text : jsstring) : M JsValue :=
  match JSON_parse text with
  | Some v => ret v
  | None => throw SyntaxError_thrown
  end.

Definition navigate (href : jsstring) : M unit :=
  fun w => (Normal tt, emit (Navigate href) w).

Definition alert (message : jsstring) : M unit :=
  fun w => (Normal tt, emit (Alert message) w).

(** ** [mailto:] links

    The shape of a mail link (RFC 6068): [mailto:], the recipient, then after
    a question mark the header fields, [name=value] separated by ampersands.
    The functions below take a link apart the way a mail client does; they
    say what the recipient, the subject and the body of a link are. *)

Module Mailto.

(** [s] up to the first [sep], and what follows that [sep], if any. *)
Fixpoint split_at (sep : code_unit) (s : jsstring)
  : jsstring * option jsstring :=
  match s with
  | [] => ([], None)
  | c :: r =>
      if c =? sep then ([], Some r)
      else let (a, b) := split_at sep r in (c :: a, b)
  end.

(** [s] cut at every [sep]. *)
Fixpoint split_all (sep : code_unit) (s : jsstring) : list jsstring :=
  match s with
  | [] => [[]]
  | c :: r =>
      if c =? sep then [] :: split_all sep r
      else match split_all sep r with
           | h :: t => (c :: h) :: t
           | [] => [[c]]
           end
  end.

Definition scheme : jsstring := js "mailto:".

Definition recipient (href : jsstring) : option jsstring :=
  if starts_with scheme href
  then Some (fst (split_at 63 (skipn (List.length scheme) href)))
  else None.

Definition headers (href : jsstring) : list (jsstring * jsstring) :=
  if starts_with scheme href
  then match snd (split_at 63 (skipn (List.length scheme) href)) with
       | Some query =>
           map (fun field =>
                  let (n, v) := split_at 61 field in
                  (n, match v with Some x => x | None => [] end))
               (split_all 38 query)
       | None => []
       end
  else [].

Fixpoint find_header (n : jsstring) (l : list (jsstring * jsstring))
  : option jsstring :=
  match l with
  | [] => None
  | (n', v) :: r => if JsString.eqb n n' then Some v else find_header n r
  end.

Definition header (n : jsstring) (href : jsstring) : option jsstring :=
  find_header n (headers href).

Definition is_alpha_digit (c : code_unit) : bool :=
  ((48 <=? c) && (c <=? 57)) || ((65 <=? c) && (c <=? 90))
  || ((97 <=? c) && (c <=? 122)).

(** The characters a header value may hold as they are: the unreserved
    characters and the delimiters RFC 6068 lets through. *)
Definition is_plain (c : code_unit) : bool :=
  is_alpha_digit c
  || (c =? 45) || (c =? 46) || (c =? 95) || (c =? 126)      (* - . _ ~ *)
  || (c =? 33) || (c =? 36) || (c =? 39) || (c =? 40)       (* ! $ ' ( *)
  || (c =? 41) || (c =? 42) || (c =? 43) || (c =? 44)       (* ) * + , *)
  || (c =? 59) || (c =? 58) || (c =? 64).                   (* ; : @ *)

Definition is_hex (c : code_unit) : bool :=
  match hex_value c with Some _ => true | None => false end.

(** A URL-encoded header value: every character is plain or belongs to a
    percent sign followed by two hexadecimal digits. *)
Fixpoint percent_encoded (s : jsstring) : bool :=
  match s with
  | [] => true
  | c :: r =>
      if c =? 37 then
        match r with
        | h1 :: h2 :: r' => is_hex h1 && is_hex h2 && percent_encoded r'
        | _ => false
        end
      else is_plain c && percent_encoded r
  end.

End Mailto.

(** ** Sample inputs

    Concrete stores, forms and worlds on which the statements below are
    exercised. *)

Module Sample.

(** An instance of the two functions on number literals that the component
    is parametric in: a literal is a zero when no digit before its exponent
    differs from 0, and it prints as its own text. *)
Fixpoint number_is_zero (literal : jsstring) : bool :=
  match literal with
  | [] => true
  | c :: r =>
      if (c =? 101) || (c =? 69) then true
      else if (49 <=? c) && (c <=? 57) then false
      else number_is_zero r
  end.

Definition number_to_string (literal : jsstring) : jsstring := literal.

Definition rohan : Form :=
  {| FormState.name := js "Rohan"; FormState.company := js "Acme";
     FormState.email := js "r@acme.com"; FormState.website := [] |}.

(** The world after the mount effect over an empty store and the three
    changes that fill in [rohan]. *)
Definition filled_world : World :=
  {| founder := JNull; form := rohan; students := mock;
     isSubmitting := false; localStorage := Storage.empty;
     log := [ StorageGetItem PROFILE_KEY; SetStudents mock;
              SetForm {| FormState.name := js "Rohan";
                         FormState.company := [];
                         FormState.email := [];
                         FormState.website := [] |};
              SetForm {| FormState.name := js "Rohan";
                         FormState.company := js "Acme";
                         FormState.email := [];
                         FormState.website := [] |};
              SetForm rohan ] |}.

(** The same world over a store that has no room left. *)
Definition full_store : Storage :=
  {| Storage.items := []; Storage.quota := Some 5%nat |}.

Definition filled_world_full_store : World :=
  {| founder := JNull; form := rohan; students := mock;
     isSubmitting := false; localStorage := full_store; log := [] |}.

(** A user whose identifier is the empty string. *)
Definition user_with_empty_id : option AuthUser := Some {| user_id := [] |}.

(** A store whose profile entry is not JSON. *)
Definition malformed_store : Storage :=
  {| Storage.items := [(PROFILE_KEY, js "{")]; Storage.quota := None |}.

Definition acme : FounderProfile :=
  {| Founder.id := js "local-founder"; Founder.name := js "Rohan";
     Founder.company := js "Acme"; Founder.email := js "r@acme.com";
     Founder.website := None |}.

(** The list view of the founder [acme]. *)
Definition acme_world : World :=
  {| founder := Founder.value acme; form := rohan; students := mock;
     isSubmitting := false; localStorage := Storage.empty; log := [] |}.

(** The second listed candidate. *)
Definition zoya : StudentCandidate :=
  {| Student.id := js "u2";
     Student.name := js "Zoya Khan";
     Student.role := js "Fullstack Developer";
     Student.skills := [js "Node.js"; js "PostgreSQL"; js "React"];
     Student.progressPercentage := 91;
     Student.projectsCompleted := 8;
     Student.lastActive := js "1d ago";
     Student.contactEmail := js "zoya@example.com" |}.

(** A store whose profile entry is JSON but no profile: an empty array. *)
Definition array_store : Storage :=
  {| Storage.items := [(PROFILE_KEY, js "[]")]; Storage.quota := None |}.

(** A store that holds an entry of another application beside a falsy
    profile entry. *)
Definition shared_store : Storage :=
  {| Storage.items := [(js "theme", js "dark"); (PROFILE_KEY, js "null")];
     Storage.quota := None |}.

(** A store that holds the profile [acme] as a submission writes it, and
    the record [JSON.parse] reads from it. *)
Definition acme_store : Storage :=
  {| Storage.items :=
       [(PROFILE_KEY, JSON_stringify (Founder.props acme))];
     Storage.quota := None |}.

Definition acme_record : JsValue :=
  JObject [ (js "id", JString (js "local-founder"));
            (js "name", JString (js "Rohan"));
            (js "company", JString (js "Acme"));
            (js "email", JString (js "r@acme.com")) ].

(** A form whose company holds an ampersand. *)
Definition rohan_of_r_and_d : Form :=
  {| FormState.name := js "Rohan"; FormState.company := js "R&D Labs";
     FormState.email := js "r@rd.example"; FormState.website := [] |}.

(** A founder value whose company is an object with an own property
    [toString], as [JSON.parse] reads it from the text
    [{ company : { toString : null } }] written with quoted keys, and the
    list view over it. *)
Definition unprintable_founder : JsValue :=
  JObject [(js "company", JObject [(js "toString", JNull)])].

Definition unprintable_text : jsstring :=
  js "{" ++ QuoteJSONString (js "company") ++ js ":{"
  ++ QuoteJSONString (js "toString") ++ js ":null}}".

Definition unprintable_store : Storage :=
  {| Storage.items := [(PROFILE_KEY, unprintable_text)];
     Storage.quota := None |}.

Definition unprintable_world : World :=
  {| founder := unprintable_founder; form := FormState.empty;
     students := mock; isSubmitting := false;
     localStorage := unprintable_store;
     log := [StorageGetItem PROFILE_KEY; SetFounder unprintable_founder;
             SetStudents mock] |}.

(** A form typed with white space around its values. *)
Definition padded : Form :=
  {| FormState.name := js "  Rohan Gupta ";
     FormState.company := js " Psyduck Labs";
     FormState.email := js "rohan@psyduck.dev  ";
     FormState.website := js " https://psyduck.dev " |}.

End Sample.

(** ** The component [FounderPortal] *)

Section FounderPortal.

(** The IEEE-754 side of a number that [JSON.parse] read is left open:
    whether the value of the literal is a zero, and the decimal text
    Number::toString gives it. *)
Variable number_is_zero : jsstring -> bool.
Variable number_to_string : jsstring -> jsstring.

(** [const { user } = useAuth()] *)
Variable user : option AuthUser.

(** ToBoolean *)
Definition ToBoolean (v : JsValue) : bool :=
  match v with
  | JUndefined | JNull => false
  | JBool b => b
  | JNumber n => negb (number_is_zero n)
  | JString s => JsString.truthy s
  | JArray _ | JObject _ => true
  end.

(** ToString, as a template literal applies it; [None] stands for the
    TypeError it throws.  An object goes through OrdinaryToPrimitive with the
    hint string: its [toString] is called when it is callable, then its
    [valueOf].  An object that [JSON.parse] made inherits both from
    Object.prototype unless it has an own property of that name, and no
    own property of it is callable.  Without an own [toString] the inherited
    one answers [[object Object]]; with one, nothing yields a primitive (the
    inherited [valueOf] returns the object itself) and ToString throws.  An
    array is joined with commas, [null] and [undefined] elements printing
    as nothing; it throws when an element does. *)
Fixpoint ToString (v : JsValue) : option jsstring :=
  match v with
  | JUndefined => Some (js "undefined")
  | JNull => Some (js "null")
  | JBool true => Some (js "true")
  | JBool false => Some (js "false")
  | JNumber n => Some (number_to_string n)
  | JString s => Some s
  | JArray l =>
      (fix join (l : list JsValue) : option jsstring :=
         match l with
         | [] => Some []
         | x :: r =>
             match match x with
                   | JUndefined | JNull => Some []
                   | _ => ToString x
                   end with
             | None => None
             | Some first =>
                 match r with
                 | [] => Some first
                 | _ :: _ =>
                     match join r with
                     | Some rest => Some (first ++ 44%N :: rest)
                     | None => None
                     end
                 end
             end
         end) l
  | JObject props =>
      match Json.lookup (js "toString") props with
      | Some _ => None
      | None => Some (js "[object Object]")
      end
  end.

(** [useMemo(() => form.name.trim() && form.company.trim() &&
    form.email.trim())]: the value of the [&&] chain is the first empty
    operand, or the last operand. *)
Definition canSubmit (f : Form) : jsstring :=
  let n := trim (FormState.name f) in
  if JsString.truthy n then
    let c := trim (FormState.company f) in
    if JsString.truthy c then trim (FormState.email f) else c
  else n.

(** The [useEffect] that runs once, after the first render. *)
Definition mount_effect : M unit :=
  saved <- localStorage_getItem PROFILE_KEY ;;
  match saved with
  | Some text =>
      if JsString.truthy text
      then (v <- JSON_parse_or_throw text ;; setFounder v)
      else ret tt
  | None => ret tt
  end ;;
  setStudents mock.

(** [user?.id || 'local-founder'] *)
Definition profile_id : jsstring :=
  match user with
  | Some u => if JsString.truthy (user_id u) then user_id u
              else js "local-founder"
  | None => js "local-founder"
  end.

(** The object literal of [handleSignup]. *)
Definition profile_of (f : Form) : FounderProfile :=
  {| Founder.id := profile_id;
     Founder.name := trim (FormState.name f);
     Founder.company := trim (FormState.company f);
     Founder.email := trim (FormState.email f);
     Founder.website :=
       let s := trim (FormState.website f) in
       if JsString.truthy s then Some s else None |}.

Definition handleSignup : M unit :=
  preventDefault ;;
  w <- read ;;
  if negb (JsString.truthy (canSubmit (form w))) then ret tt
  else
    setIsSubmitting true ;;
    try_finally
      (let profile := profile_of (form w) in
       localStorage_setItem PROFILE_KEY
         (JSON_stringify (Founder.props profile)) ;;
       setFounder (Founder.value profile))
      (setIsSubmitting false).

(** [founder?.company || 'our company'], as the template literal prints
    it; [None] when printing it throws. *)
Definition company_or_default (founder : JsValue) : option jsstring :=
  let c := Json.get founder (js "company") in
  if ToBoolean c then ToString c else Some (js "our company").

(** The link with the company text [company] put in. *)
Definition contact_link (student : StudentCandidate) (company : jsstring)
  : jsstring :=
  js "mailto:" ++ Student.contactEmail student
  ++ js "?subject=Collaboration%20with%20" ++ Student.name student
  ++ js "&body=Hi%20" ++ Student.name student
  ++ js ",%0D%0A%0D%0AI%20would%20love%20to%20connect%20regarding%20opportunities%20at%20"
  ++ company ++ js ".".

(** The template literal of [handleContact]; [None] when its evaluation
    throws (the fields of a candidate are strings, the company is the one
    substitution that may not print). *)
Definition contact_href (student : StudentCandidate) (founder : JsValue)
  : option jsstring :=
  match company_or_default founder with
  | Some company => Some (contact_link student company)
  | None => None
  end.

(** When the template literal throws, nothing is assigned to
    [window.location.href]. *)
Definition handleContact (student : StudentCandidate) : M unit :=
  w <- read ;;
  match contact_href student (founder w) with
  | Some href => navigate href
  | None => throw TypeError_thrown
  end.

Definition handleHire (student : StudentCandidate) : M unit :=
  alert (js "Hiring request sent for " ++ Student.name student).

(** *** What is rendered *)

Inductive View : Type := FormView | CandidateListView.

(** [!founder ? <form card> : <candidates card>] *)
Definition view (w : World) : View :=
  if negb (ToBoolean (founder w)) then FormView else CandidateListView.

(** [disabled={!canSubmit || isSubmitting}] *)
Definition submit_disabled (w : World) : bool :=
  negb (JsString.truthy (canSubmit (form w))) || isSubmitting w.

(** The candidates on the page: [students.map(...)] in the list view. *)
Definition candidates_shown (w : World) : list StudentCandidate :=
  match view w with
  | FormView => []
  | CandidateListView => students w
  end.

(** *** Events *)

Inductive Event : Type :=
| ChangeName (value : jsstring)
| ChangeCompany (value : jsstring)
| ChangeEmail (value : jsstring)
| ChangeWebsite (value : jsstring)
| SubmitForm
| ClickContact (index : nat)
| ClickHire (index : nat).

(** An event can occur when the element it comes from is on the page: the
    inputs and the form in the form view, the two buttons of the
    [index]-th candidate in the list view. *)
Definition enabled (w : World) (ev : Event) : bool :=
  match ev, view w with
  | ChangeName _, FormView | ChangeCompany _, FormView
  | ChangeEmail _, FormView | ChangeWebsite _, FormView
  | SubmitForm, FormView => true
  | ClickContact i, CandidateListView | ClickHire i, CandidateListView =>
      match nth_error (students w) i with Some _ => true | None => false end
  | _, _ => false
  end.

Definition handle (ev : Event) : M unit :=
  match ev with
  | ChangeName v =>
      w <- read ;;
      setForm {| FormState.name := v;
                 FormState.company := FormState.company (form w);
                 FormState.email := FormState.email (form w);
                 FormState.website := FormState.website (form w) |}
  | ChangeCompany v =>
      w <- read ;;
      setForm {| FormState.name := FormState.name (form w);
                 FormState.company := v;
                 FormState.email := FormState.email (form w);
                 FormState.website := FormState.website (form w) |}
  | ChangeEmail v =>
      w <- read ;;
      setForm {| FormState.name := FormState.name (form w);
                 FormState.company := FormState.company (form w);
                 FormState.email := v;
                 FormState.website := FormState.website (form w) |}
  | ChangeWebsite v =>
      w <- read ;;
      setForm {| FormState.name := FormState.name (form w);
                 FormState.company := FormState.company (form w);
                 FormState.email := FormState.email (form w);
                 FormState.website := v |}
  | SubmitForm => handleSignup
  | ClickContact i =>
      w <- read ;;
      match nth_error (students w) i with
      | Some student => handleContact student
      | None => ret tt
      end
  | ClickHire i =>
      w <- read ;;
      match nth_error (students w) i with
      | Some student => handleHire student
      | None => ret tt
      end
  end.

(** The state of the first render: the initial values of the [useState]
    cells, over whatever the store holds. *)
Definition initial_world (store : Storage) : World :=
  {| founder := JNull; form := FormState.empty; students := [];
     isSubmitting := false; localStorage := store; log := [] |}.

(** The stored text the mount effect hands to [JSON.parse]: the value of
    [saved] when it is truthy. *)
Definition saved_profile_text (store : Storage) : option jsstring :=
  match Storage.getItem store PROFILE_KEY with
  | Some text => if JsString.truthy text then Some text else None
  | None => None
  end.

(** The worlds the component can be in once its mount effect has run to
    completion: the world the effect leaves, and every world an event
    handler leaves from there (a handler that throws rejects the promise of
    its async function; the component lives on). *)
Inductive reachable (store : Storage) : World -> Prop :=
| reach_mount (w : World) :
    mount_effect (initial_world store) = (Normal tt, w) ->
    reachable store w
| reach_event (w w' : World) (ev : Event) (r : Completion unit) :
    reachable store w ->
    enabled w ev = true ->
    handle ev w = (r, w') ->
    reachable store w'.

(** *** More of what is rendered, and runs of events *)

(** [{isSubmitting ? 'Saving...' : 'Save profile'}] *)
Definition submit_label (w : World) : jsstring :=
  if isSubmitting w then js "Saving..." else js "Save profile".

(** The world after the events [evs], each one in turn; [None] when one of
    them comes from an element that is not on the page then. *)
Fixpoint run (evs : list Event) (w : World) : option World :=
  match evs with
  | [] => Some w
  | ev :: rest => if enabled w ev then run rest (snd (handle ev w)) else None
  end.

(** The four inputs of the form, and the input an [onChange] event comes
    from with the value typed into it. *)
Inductive Field : Type := NameField | CompanyField | EmailField | WebsiteField.

Definition field_value (fld : Field) (f : Form) : jsstring :=
  match fld with
  | NameField => FormState.name f
  | CompanyField => FormState.company f
  | EmailField => FormState.email f
  | WebsiteField => FormState.website f
  end.

Definition same_field (a b : Field) : bool :=
  match a, b with
  | NameField, NameField | CompanyField, CompanyField
  | EmailField, EmailField | WebsiteField, WebsiteField => true
  | _, _ => false
  end.

Definition change_of (ev : Event) : option (Field * jsstring) :=
  match ev with
  | ChangeName v => Some (NameField, v)
  | ChangeCompany v => Some (CompanyField, v)
  | ChangeEmail v => Some (EmailField, v)
  | ChangeWebsite v => Some (WebsiteField, v)
  | SubmitForm | ClickContact _ | ClickHire _ => None
  end.

(** The value last typed into [fld] among [evs], or [start] when none of
    them is a change of [fld]. *)
Fixpoint last_typed (fld : Field) (evs : list Event) (start : jsstring)
  : jsstring :=
  match evs with
  | [] => start
  | ev :: rest =>
      match change_of ev with
      | Some (fld', v) =>
          if same_field fld fld' then last_typed fld rest v
          else last_typed fld rest start
      | None => last_typed fld rest start
      end
  end.

Definition is_storage_read (e : Effect) : bool :=
  match e with StorageGetItem _ => true | _ => false end.

Definition is_navigation_or_alert (e : Effect) : bool :=
  match e with Navigate _ | Alert _ => true | _ => false end.

(** A string with no white space at either end; the empty string is one. *)
Definition no_outer_white_space (s : jsstring) : bool :=
  match s with
  | [] => true
  | c :: _ => negb (is_white_space c) && negb (is_white_space (last s c))
  end.

(** The form a user fills in by typing the fields of a profile back in. *)
Definition form_of_profile (p : FounderProfile) : Form :=
  {| FormState.name := Founder.name p;
     FormState.company := Founder.company p;
     FormState.email := Founder.email p;
     FormState.website :=
       match Founder.website p with Some site => site | None => [] end |}.

(** What an effect of an event handler run in the world [w] can be: never a
    read of the store; a write to the profile key only; a navigation only to
    the contact link of a listed candidate, and an alert only with the hire
    message of a listed candidate, both in the list view. *)
Definition handler_effect (w : World) (e : Effect) : Prop :=
  match e with
  | StorageGetItem _ => False
  | StorageSetItem k _ => k = PROFILE_KEY
  | Navigate href =>
      view w = CandidateListView /\
      exists student, In student (students w) /\
                      contact_href student (founder w) = Some href
  | Alert message =>
      view w = CandidateListView /\
      exists student, In student (students w) /\
                      message = js "Hiring request sent for "
                                ++ Student.name student
  | PreventDefault | SetFounder _ | SetForm _ | SetStudents _
  | SetIsSubmitting _ => True
  end.

(** The event [ev] in the world [w] is a submission that passes the guard
    and whose write the store accepts. *)
Definition accepted_submission (ev : Event) (w : World) : Prop :=
  ev = SubmitForm /\
  JsString.truthy (canSubmit (form w)) = true /\
  Storage.setItem (localStorage w) PROFILE_KEY
    (JSON_stringify (Founder.props (profile_of (form w)))) <> None.

(** Among the events [evs], run from [w0], there is an accepted
    submission. *)
Definition submission_accepted_in (evs : list Event) (w0 : World) : Prop :=
  exists (before after : list Event) (w1 : World),
    evs = before ++ SubmitForm :: after /\
    run before w0 = Some w1 /\
    accepted_submission SubmitForm w1.

(** A string with none of the characters that end a part of a mail link:
    the ampersand between header fields, the question mark before them and
    the number sign before a fragment. *)
Definition plain_for_mailto (s : jsstring) : bool :=
  forallb (fun c => negb ((c =? 38)%N || (c =? 63)%N || (c =? 35)%N)) s.

Definition is_hire_click (ev : Event) : bool :=
  match ev with ClickHire _ => true | _ => false end.

Definition is_set_founder (e : Effect) : bool :=
  match e with SetFounder _ => true | _ => false end.

(** *** Notions used in the proofs *)

Definition cons_parsed (c : code_unit) (p : ParseResult jsstring)
  : ParseResult jsstring :=
  match p with
  | Parsed str rest => Parsed (c :: str) rest
  | other => other
  end.

(** A parser call makes progress on [s] when it does not run out of fuel and
    what it leaves unread is shorter than [s]. *)
Definition progresses (s : jsstring) (p : ParseResult JsValue) : Prop :=
  p <> OutOfFuel /\
  forall v rest,
    p = Parsed v rest -> (List.length rest < List.length s)%nat.

(** The text [JSON.stringify] writes for a member whose value is a string,
    and the properties [JSON.parse] defines from a list of such members. *)
Definition member_text (kv : jsstring * jsstring) : jsstring :=
  QuoteJSONString (fst kv) ++ 58%N :: QuoteJSONString (snd kv).

Definition define_all (members : list (jsstring * jsstring))
           (acc : list (jsstring * JsValue)) : list (jsstring * JsValue) :=
  fold_left (fun a kv => define (fst kv) (JString (snd kv)) a) members acc.

(** The members of a profile that [JSON.stringify] writes: all but an
    [undefined] website. *)
Definition written_members (p : FounderProfile) : list (jsstring * jsstring) :=
  [ (js "id", Founder.id p); (js "name", Founder.name p);
    (js "company", Founder.company p); (js "email", Founder.email p) ]
  ++ match Founder.website p with
     | Some site => [(js "website", site)]
     | None => []
     end.

Create HintDb parser.

(** ** Lemmas on strings *)

Lemma eqb_refl' (s : jsstring) : JsString.eqb s s = true.
Proof.
  induction s as [|c s IH]; simpl; [reflexivity|].
  now rewrite N.eqb_refl, IH.
Qed.

Lemma eqb_eq' (a b : jsstring) : JsString.eqb a b = true <-> a = b.
Proof.
  split.
  - revert b; induction a as [|x a IH]; intros [|y b] H; simpl in H;
      try discriminate; [reflexivity|].
    apply andb_true_iff in H as [Hx Hr].
    apply N.eqb_eq in Hx. f_equal; auto.
  - intros ->. apply eqb_refl'.
Qed.

Lemma trimStart_nil_iff (s : jsstring) : trimStart s = [] <-> blank s = true.
Proof.
  induction s as [|c s IH]; simpl.
  - tauto.
  - destruct (is_white_space c); simpl; [exact IH|].
    split; discriminate.
Qed.

Lemma blank_app (a b : jsstring) : blank (a ++ b) = blank a && blank b.
Proof. apply forallb_app. Qed.

Lemma blank_rev (s : jsstring) : blank (rev s) = blank s.
Proof.
  induction s as [|c s IH]; simpl; [reflexivity|].
  rewrite blank_app, IH. simpl. rewrite andb_true_r. apply andb_comm.
Qed.

Lemma trimStart_blank_iff (s : jsstring) :
  blank (trimStart s) = true <-> blank s = true.
Proof.
  induction s as [|c s IH]; simpl; [tauto|].
  destruct (is_white_space c) eqn:E; simpl; [exact IH|].
  rewrite E. simpl. tauto.
Qed.

(** Trimming leaves nothing exactly when the string is blank. *)
Lemma trim_nil_iff (s : jsstring) : trim s = [] <-> blank s = true.
Proof.
  unfold trim, trimEnd. split.
  - intros H.
    assert (Hr : trimStart (rev (trimStart s)) = []).
    { destruct (trimStart (rev (trimStart s))) as [|c l]; [reflexivity|].
      simpl in H. destruct (rev l); discriminate. }
    apply trimStart_nil_iff in Hr. rewrite blank_rev in Hr.
    now apply trimStart_blank_iff.
  - intros H. apply trimStart_nil_iff in H. rewrite H. reflexivity.
Qed.

Lemma truthy_trim (s : jsstring) : truthy (trim s) = negb (blank s).
Proof.
  destruct (blank s) eqn:E.
  - apply trim_nil_iff in E. now rewrite E.
  - destruct (trim s) eqn:T; [|reflexivity].
    apply trim_nil_iff in T. congruence.
Qed.

(** *** Reading back what [QuoteJSONString] wrote *)

Lemma hex_value_hex_digit (n : N) : n < 16 -> hex_value (hex_digit n) = Some n.
Proof.
  intros H. destruct n as [|p]; [reflexivity|].
  repeat (destruct p as [p|p|]; try reflexivity; try lia).
Qed.

Lemma hex4_digits (c : code_unit) :
  c < 65536 ->
  hex4 (hex_digit ((c / 4096) mod 16)) (hex_digit ((c / 256) mod 16))
       (hex_digit ((c / 16) mod 16)) (hex_digit (c mod 16)) = Some c.
Proof.
  intros H. unfold hex4.
  rewrite !hex_value_hex_digit by (apply N.mod_upper_bound; discriminate).
  f_equal. zify. Z.to_euclidean_division_equations. lia.
Qed.

Lemma parse_unicode_escape (c : code_unit) (t : jsstring) :
  c < 65536 ->
  parse_string_body (unicode_escape c ++ t)
  = cons_parsed c (parse_string_body t).
Proof.
  intros H. pose proof (hex4_digits H) as E.
  unfold unicode_escape.
  remember (hex_digit ((c / 4096) mod 16)) as h1.
  remember (hex_digit ((c / 256) mod 16)) as h2.
  remember (hex_digit ((c / 16) mod 16)) as h3.
  remember (hex_digit (c mod 16)) as h4.
  cbn. rewrite E. destruct (parse_string_body t); reflexivity.
Qed.

Lemma parse_plain_char (c : code_unit) (t : jsstring) :
  (c =? 34) = false -> (c =? 92) = false -> (c <? 32) = false ->
  parse_string_body (c :: t) = cons_parsed c (parse_string_body t).
Proof.
  intros E1 E2 E3. cbn [parse_string_body]. rewrite E1, E2, E3.
  destruct (parse_string_body t); reflexivity.
Qed.

Lemma surrogate_plain (c : code_unit) :
  is_high_surrogate c || is_low_surrogate c = true ->
  (c =? 34) = false /\ (c =? 92) = false /\ (c <? 32) = false /\ c < 65536.
Proof.
  unfold is_high_surrogate, is_low_surrogate. intros H.
  assert (55296 <= c <= 57343) as [Hlo Hhi].
  { apply orb_true_iff in H as [H|H]; apply andb_true_iff in H as [A B];
      apply N.leb_le in A; apply N.leb_le in B; lia. }
  repeat split; try (apply N.eqb_neq; lia); try (apply N.ltb_ge; lia); lia.
Qed.

Lemma parse_quote_chars_bounded (n : nat) :
  forall (s rest : jsstring),
    (List.length s <= n)%nat ->
    parse_string_body (quote_chars s ++ 34 :: rest) = Parsed s rest.
Proof.
  induction n as [|n IH]; intros s rest Hlen.
  - destruct s; [reflexivity | simpl in Hlen; lia].
  - destruct s as [|c r]; [reflexivity|].
    simpl in Hlen. assert (Hr : (List.length r <= n)%nat) by lia.
    cbn [quote_chars].
    destruct (c =? 8) eqn:E8;
      [apply N.eqb_eq in E8; subst; cbn; now rewrite IH|].
    destruct (c =? 9) eqn:E9;
      [apply N.eqb_eq in E9; subst; cbn; now rewrite IH|].
    destruct (c =? 10) eqn:E10;
      [apply N.eqb_eq in E10; subst; cbn; now rewrite IH|].
    destruct (c =? 12) eqn:E12;
      [apply N.eqb_eq in E12; subst; cbn; now rewrite IH|].
    destruct (c =? 13) eqn:E13;
      [apply N.eqb_eq in E13; subst; cbn; now rewrite IH|].
    destruct (c =? 34) eqn:E34;
      [apply N.eqb_eq in E34; subst; cbn; now rewrite IH|].
    destruct (c =? 92) eqn:E92;
      [apply N.eqb_eq in E92; subst; cbn; now rewrite IH|].
    destruct (c <? 32) eqn:E32.
    { rewrite <- app_assoc, parse_unicode_escape, IH by
        (try apply N.ltb_lt in E32; lia).
      reflexivity. }
    destruct (is_high_surrogate c) eqn:Eh.
    { destruct (surrogate_plain c) as (_ & _ & _ & Hc); [now rewrite Eh|].
      destruct r as [|d r'].
      - rewrite parse_unicode_escape by exact Hc. reflexivity.
      - destruct (is_low_surrogate d) eqn:El.
        + destruct (surrogate_plain d) as (D1 & D2 & D3 & _);
            [now rewrite El, orb_true_r|].
          cbn [app]. rewrite parse_plain_char by assumption.
          rewrite parse_plain_char by assumption.
          rewrite IH by (simpl in Hr; lia). reflexivity.
        + rewrite <- app_assoc, parse_unicode_escape, IH by (exact Hc || lia).
          reflexivity. }
    destruct (is_low_surrogate c) eqn:El.
    { destruct (surrogate_plain c) as (_ & _ & _ & Hc);
        [now rewrite El, orb_true_r|].
      rewrite <- app_assoc, parse_unicode_escape, IH by (exact Hc || lia).
      reflexivity. }
    cbn [app]. rewrite parse_plain_char by assumption.
    rewrite IH by exact Hr. reflexivity.
Qed.

(** A quoted string reads back as the string it quotes, whatever follows. *)
Lemma parse_quote_chars (s rest : jsstring) :
  parse_string_body (quote_chars s ++ 34 :: rest) = Parsed s rest.
Proof. apply (parse_quote_chars_bounded (n := List.length s)). lia. Qed.

(** *** The parser never runs out of fuel *)

Local Open Scope nat_scope.

Lemma skip_ws_length (s : jsstring) : List.length (skip_ws s) <= List.length s.
Proof.
  induction s as [|c s IH]; simpl; [lia|].
  destruct (is_json_ws c); simpl; lia.
Qed.

Lemma skip_ws_cons (s r : jsstring) (c : code_unit) :
  skip_ws s = c :: r -> List.length r < List.length s.
Proof. intros E. pose proof (skip_ws_length s) as H. rewrite E in H. simpl in H. lia. Qed.

Lemma parse_string_body_bounded (n : nat) :
  forall s, List.length s <= n ->
    parse_string_body s <> OutOfFuel /\
    forall str rest, parse_string_body s = Parsed str rest ->
                     List.length rest < List.length s.
Proof.
  induction n as [|n IH]; intros s Hlen.
  - destruct s; [|simpl in Hlen; lia]. simpl. split; [discriminate|]. discriminate.
  - destruct s as [|c r]; [simpl; split; discriminate|].
    simpl in Hlen. cbn [parse_string_body].
    destruct (c =? 34)%N.
    { split; [discriminate|]. intros str rest [= _ <-]. simpl. lia. }
    destruct (c =? 92)%N.
    { destruct r as [|e r1]; [split; discriminate|].
      destruct (e =? 117)%N.
      - destruct r1 as [|h1 [|h2 [|h3 [|h4 r2]]]]; try (split; discriminate).
        destruct (hex4 h1 h2 h3 h4); [|split; discriminate].
        destruct (IH r2) as [A B]; [simpl in Hlen; lia|].
        destruct (parse_string_body r2) as [str' rest'| |];
          [|split; discriminate|contradiction].
        split; [discriminate|]. intros str rest [= _ <-].
        specialize (B _ _ eq_refl). simpl. lia.
      - destruct (simple_escape e); [|split; discriminate].
        destruct (IH r1) as [A B]; [simpl in Hlen; lia|].
        destruct (parse_string_body r1) as [str' rest'| |];
          [|split; discriminate|contradiction].
        split; [discriminate|]. intros str rest [= _ <-].
        specialize (B _ _ eq_refl). simpl. lia. }
    destruct (c <? 32)%N; [split; discriminate|].
    destruct (IH r) as [A B]; [lia|].
    destruct (parse_string_body r) as [str' rest'| |];
      [|split; discriminate|contradiction].
    split; [discriminate|]. intros str rest [= _ <-].
    specialize (B _ _ eq_refl). simpl. lia.
Qed.

Lemma parse_string_body_progress (s : jsstring) :
  parse_string_body s <> OutOfFuel /\
  forall str rest, parse_string_body s = Parsed str rest ->
                   List.length rest < List.length s.
Proof. apply (parse_string_body_bounded (n := List.length s)). lia. Qed.

Lemma span_digits_length (s : jsstring) :
  List.length (snd (span_digits s)) <= List.length s.
Proof.
  induction s as [|c s IH]; simpl; [lia|].
  destruct (is_digit c); simpl; [|lia].
  destruct (span_digits s); simpl in *; lia.
Qed.

Lemma parse_int_length (s i rest : jsstring) :
  parse_int s = Some (i, rest) -> List.length rest < List.length s.
Proof.
  destruct s as [|c r]; simpl; [discriminate|].
  destruct (c =? 48)%N; [intros [= _ <-]; lia|].
  destruct (is_digit c); [|discriminate].
  pose proof (span_digits_length r) as H.
  destruct (span_digits r); simpl in H. intros [= _ <-]. lia.
Qed.

Lemma parse_frac_length (s f rest : jsstring) :
  parse_frac s = Some (f, rest) -> List.length rest <= List.length s.
Proof.
  destruct s as [|c r]; simpl; [intros [= _ <-]; simpl; lia|].
  destruct (c =? 46)%N; [|intros [= _ <-]; simpl; lia].
  pose proof (span_digits_length r) as H.
  destruct (span_digits r) as [[|d ds] rest']; simpl in H; [discriminate|].
  intros [= _ <-]. lia.
Qed.

Lemma parse_exp_length (s e rest : jsstring) :
  parse_exp s = Some (e, rest) -> List.length rest <= List.length s.
Proof.
  destruct s as [|c r]; simpl; [intros [= _ <-]; simpl; lia|].
  destruct ((c =? 101) || (c =? 69))%N; [|intros [= _ <-]; simpl; lia].
  assert (H : forall sign r1 (Hr : List.length r1 <= List.length r),
             (let (d, rest0) := span_digits r1 in
              match d with
              | [] => None
              | _ :: _ => Some (c :: sign ++ d, rest0)
              end) = Some (e, rest) -> List.length rest <= S (List.length r)).
  { intros sign r1 Hr. pose proof (span_digits_length r1) as H.
    destruct (span_digits r1) as [[|d ds] rest']; simpl in H; [discriminate|].
    intros [= _ <-]. lia. }
  destruct r as [|x r']; [apply H; simpl; lia|].
  destruct ((x =? 43) || (x =? 45))%N; apply H; simpl; lia.
Qed.

Lemma parse_number_progress (s : jsstring) :
  parse_number s <> OutOfFuel /\
  forall v rest, parse_number s = Parsed v rest -> List.length rest < List.length s.
Proof.
  unfold parse_number.
  assert (H : forall sign s1, List.length s1 <= List.length s ->
     match parse_int s1 with
     | Some (i, s2) =>
         match parse_frac s2 with
         | Some (f, s3) =>
             match parse_exp s3 with
             | Some (e, s4) => Parsed (JNumber (sign ++ i ++ f ++ e)) s4
             | None => SyntaxError
             end
         | None => SyntaxError
         end
     | None => SyntaxError
     end <> OutOfFuel /\
     forall v rest,
     match parse_int s1 with
     | Some (i, s2) =>
         match parse_frac s2 with
         | Some (f, s3) =>
             match parse_exp s3 with
             | Some (e, s4) => Parsed (JNumber (sign ++ i ++ f ++ e)) s4
             | None => SyntaxError
             end
         | None => SyntaxError
         end
     | None => SyntaxError
     end = Parsed v rest -> List.length rest < List.length s).
  { intros sign s1 Hs.
    destruct (parse_int s1) as [[i s2]|] eqn:Ei; [|split; discriminate].
    apply parse_int_length in Ei.
    destruct (parse_frac s2) as [[f s3]|] eqn:Ef; [|split; discriminate].
    apply parse_frac_length in Ef.
    destruct (parse_exp s3) as [[e s4]|] eqn:Ee; [|split; discriminate].
    apply parse_exp_length in Ee.
    split; [discriminate|]. intros v rest [= _ <-]. lia. }
  destruct s as [|c r]; [apply H; simpl; lia|].
  destruct (c =? 45)%N; apply H; simpl; lia.
Qed.

Lemma parse_keyword_progress (kw : string) (v : JsValue) (s : jsstring) :
  0 < String.length kw ->
  parse_keyword kw v s <> OutOfFuel /\
  forall v' rest, parse_keyword kw v s = Parsed v' rest ->
                  List.length rest < List.length s.
Proof.
  intros Hk. unfold parse_keyword.
  destruct (starts_with (js kw) s) eqn:E; [|split; discriminate].
  split; [discriminate|]. intros v' rest [= _ <-].
  assert (Hs : s <> []).
  { intros ->. destruct kw; simpl in *; [lia|discriminate]. }
  rewrite length_skipn.
  assert (0 < List.length s) by (destruct s; [congruence|simpl; lia]). lia.
Qed.

Lemma progresses_weaken (s' s : jsstring) (p : ParseResult JsValue) :
  progresses s' p -> List.length s' <= List.length s -> progresses s p.
Proof.
  intros [A B] H. split; [exact A|].
  intros v rest E. apply B in E. lia.
Qed.

Lemma progresses_error (s : jsstring) : progresses s SyntaxError.
Proof. split; discriminate. Qed.

Lemma progresses_parsed (s rest : jsstring) (v : JsValue) :
  List.length rest < List.length s -> progresses s (Parsed v rest).
Proof. intros H. split; [discriminate|]. now intros v' rest' [= _ <-]. Qed.

#[local] Hint Resolve progresses_error : parser.

Lemma parser_fuel (fuel : nat) :
  (forall s, 2 * List.length s < fuel -> progresses s (parse_value fuel s)) /\
  (forall s acc, 2 * List.length s + 1 < fuel ->
                 progresses s (parse_elements fuel s acc)) /\
  (forall s acc, 2 * List.length s < fuel ->
                 progresses s (parse_members fuel s acc)).
Proof.
  induction fuel as [|f (IHv & IHe & IHm)].
  - repeat split; intros; lia.
  - split; [|split].
    + intros s Hf. cbn [parse_value].
      destruct (skip_ws s) as [|c r] eqn:Es; [auto with parser|].
      apply skip_ws_cons in Es.
      destruct (c =? 123)%N.
      { destruct (skip_ws r) as [|c' r'] eqn:Er; [auto with parser|].
        apply skip_ws_cons in Er.
        destruct (c' =? 125)%N; [apply progresses_parsed; lia|].
        apply progresses_weaken with (s' := c' :: r'); [|simpl; lia].
        apply IHm. simpl. lia. }
      destruct (c =? 91)%N.
      { destruct (skip_ws r) as [|c' r'] eqn:Er; [auto with parser|].
        apply skip_ws_cons in Er.
        destruct (c' =? 93)%N; [apply progresses_parsed; lia|].
        apply progresses_weaken with (s' := c' :: r'); [|simpl; lia].
        apply IHe. simpl. lia. }
      destruct (c =? 34)%N.
      { destruct (parse_string_body_progress r) as [A B].
        destruct (parse_string_body r) as [str rest| |];
          [|auto with parser|contradiction].
        specialize (B _ _ eq_refl). apply progresses_parsed. lia. }
      assert (Hcr : List.length (c :: r) <= List.length s) by (simpl; lia).
      destruct (c =? 116)%N;
        [eapply progresses_weaken; [|exact Hcr];
         apply parse_keyword_progress; simpl; lia|].
      destruct (c =? 102)%N;
        [eapply progresses_weaken; [|exact Hcr];
         apply parse_keyword_progress; simpl; lia|].
      destruct (c =? 110)%N;
        [eapply progresses_weaken; [|exact Hcr];
         apply parse_keyword_progress; simpl; lia|].
      eapply progresses_weaken; [|exact Hcr]. apply parse_number_progress.
    + intros s acc Hf. cbn [parse_elements].
      destruct (IHv s) as [A B]; [lia|].
      destruct (parse_value f s) as [v rest| |];
        [|auto with parser|contradiction].
      specialize (B _ _ eq_refl).
      destruct (skip_ws rest) as [|c r] eqn:Er; [auto with parser|].
      apply skip_ws_cons in Er.
      destruct (c =? 44)%N.
      { apply progresses_weaken with (s' := r); [|lia]. apply IHe. lia. }
      destruct (c =? 93)%N; [apply progresses_parsed; lia|auto with parser].
    + intros s acc Hf. cbn [parse_members].
      destruct (skip_ws s) as [|c r] eqn:Es; [auto with parser|].
      apply skip_ws_cons in Es.
      destruct (c =? 34)%N; [|auto with parser].
      destruct (parse_string_body_progress r) as [A B].
      destruct (parse_string_body r) as [k rest| |];
        [|auto with parser|contradiction].
      specialize (B _ _ eq_refl).
      destruct (skip_ws rest) as [|c2 r2] eqn:Er; [auto with parser|].
      apply skip_ws_cons in Er.
      destruct (c2 =? 58)%N; [|auto with parser].
      destruct (IHv r2) as [A2 B2]; [lia|].
      destruct (parse_value f r2) as [v rest2| |];
        [|auto with parser|contradiction].
      specialize (B2 _ _ eq_refl).
      destruct (skip_ws rest2) as [|c3 r3] eqn:Er2; [auto with parser|].
      apply skip_ws_cons in Er2.
      destruct (c3 =? 44)%N.
      { apply progresses_weaken with (s' := r3); [|lia]. apply IHm. lia. }
      destruct (c3 =? 125)%N; [apply progresses_parsed; lia|auto with parser].
Qed.

(** With the fuel [JSON_parse] gives it, [parse_value] always comes to a
    result: a value or a syntax error. *)
Lemma parse_value_fuel (text : jsstring) :
  parse_value (2 * List.length text + 2) text <> OutOfFuel.
Proof.
  destruct (parser_fuel (2 * List.length text + 2)) as (Hv & _).
  apply Hv. lia.
Qed.

Local Close Scope nat_scope.

(** ** Lemmas on the handlers *)

Lemma canSubmit_truthy (f : Form) :
  JsString.truthy (canSubmit f)
  = negb (blank (FormState.name f)) && negb (blank (FormState.company f))
    && negb (blank (FormState.email f)).
Proof.
  unfold canSubmit. cbv zeta.
  rewrite <- !truthy_trim.
  destruct (JsString.truthy (trim (FormState.name f))) eqn:En; simpl.
  - destruct (JsString.truthy (trim (FormState.company f))) eqn:Ec; simpl;
      [reflexivity | exact Ec].
  - exact En.
Qed.

Lemma canSubmit_true_iff (f : Form) :
  JsString.truthy (canSubmit f) = true <->
  trim (FormState.name f) <> [] /\ trim (FormState.company f) <> [] /\
  trim (FormState.email f) <> [].
Proof.
  rewrite canSubmit_truthy, !andb_true_iff, !negb_true_iff.
  assert (E : forall s, blank s = false <-> trim s <> []).
  { intros s. pose proof (trim_nil_iff s) as T.
    destruct (blank s); split; intros H; try congruence.
    - exfalso. apply H, T. reflexivity.
    - intros N. apply T in N. discriminate. }
  rewrite !E. tauto.
Qed.

Lemma handleSignup_blocked (w : World) :
  JsString.truthy (canSubmit (form w)) = false ->
  handleSignup w = (Normal tt, emit PreventDefault w).
Proof.
  intros H. unfold handleSignup, bind, preventDefault, read. simpl.
  rewrite H. reflexivity.
Qed.

Lemma handleSignup_accepted (w : World) (st' : Storage) :
  JsString.truthy (canSubmit (form w)) = true ->
  Storage.setItem (localStorage w) PROFILE_KEY
    (JSON_stringify (Founder.props (profile_of (form w)))) = Some st' ->
  handleSignup w
  = (Normal tt,
     {| founder := Founder.value (profile_of (form w));
        form := form w; students := students w; isSubmitting := false;
        localStorage := st';
        log := log w ++
               [PreventDefault; SetIsSubmitting true;
                StorageSetItem PROFILE_KEY
                  (JSON_stringify (Founder.props (profile_of (form w))));
                SetFounder (Founder.value (profile_of (form w)));
                SetIsSubmitting false] |}).
Proof.
  intros H Hset.
  unfold handleSignup, bind, preventDefault, read, try_finally,
    setIsSubmitting, localStorage_setItem, setFounder.
  simpl. rewrite H. simpl. rewrite Hset. unfold emit. simpl.
  rewrite <- !app_assoc. reflexivity.
Qed.

Lemma handleSignup_rejected (w : World) :
  JsString.truthy (canSubmit (form w)) = true ->
  Storage.setItem (localStorage w) PROFILE_KEY
    (JSON_stringify (Founder.props (profile_of (form w)))) = None ->
  handleSignup w
  = (Throw QuotaExceededError,
     {| founder := founder w;
        form := form w; students := students w; isSubmitting := false;
        localStorage := localStorage w;
        log := log w ++
               [PreventDefault; SetIsSubmitting true;
                StorageSetItem PROFILE_KEY
                  (JSON_stringify (Founder.props (profile_of (form w))));
                SetIsSubmitting false] |}).
Proof.
  intros H Hset.
  unfold handleSignup, bind, preventDefault, read, try_finally,
    setIsSubmitting, localStorage_setItem, setFounder.
  simpl. rewrite H. simpl. rewrite Hset. unfold emit. simpl.
  rewrite <- !app_assoc. reflexivity.
Qed.

Lemma handleContact_cases (student : StudentCandidate) (w : World) :
  (exists href,
     contact_href student (founder w) = Some href /\
     handleContact student w = (Normal tt, emit (Navigate href) w)) \/
  (contact_href student (founder w) = None /\
   handleContact student w = (Throw TypeError_thrown, w)).
Proof.
  unfold handleContact, bind, read.
  destruct (contact_href student (founder w)) as [href|]; [left|right];
    eauto.
Qed.

(** Whatever the handler of an event does, the flag [isSubmitting] is down
    when it is done, if it was down before. *)
Lemma handle_isSubmitting (ev : Event) (w w' : World) (r : Completion unit) :
  isSubmitting w = false -> handle ev w = (r, w') -> isSubmitting w' = false.
Proof.
  intros Hs H. destruct ev; simpl in H;
    try (injection H as _ <-; exact Hs).
  - destruct (JsString.truthy (canSubmit (form w))) eqn:Ec.
    + destruct (Storage.setItem (localStorage w) PROFILE_KEY
                  (JSON_stringify (Founder.props (profile_of (form w)))))
        as [st'|] eqn:Es.
      * rewrite (handleSignup_accepted w Ec Es) in H.
        now injection H as _ <-.
      * rewrite (handleSignup_rejected w Ec Es) in H.
        now injection H as _ <-.
    + rewrite (handleSignup_blocked w Ec) in H. now injection H as _ <-.
  - unfold bind, read in H.
    destruct (nth_error (students w) index) as [st|];
      [change (handleContact st w = (r, w')) in H;
       destruct (handleContact_cases st w)
         as [(href & _ & Hc) | (_ & Hc)]; rewrite Hc in H|];
      injection H as _ <-; exact Hs.
  - unfold bind, read in H. destruct (nth_error (students w) index);
      injection H as _ <-; exact Hs.
Qed.

Lemma mount_effect_isSubmitting (store : Storage) (w : World)
      (r : Completion unit) :
  mount_effect (initial_world store) = (r, w) -> isSubmitting w = false.
Proof.
  unfold mount_effect, bind, localStorage_getItem, JSON_parse_or_throw,
    setStudents, setFounder, ret, throw. simpl.
  destruct (Storage.getItem store PROFILE_KEY) as [text|];
    [|now intros [= _ <-]].
  destruct (JsString.truthy text); [|now intros [= _ <-]].
  destruct (JSON_parse text); now intros [= _ <-].
Qed.

Lemma reachable_isSubmitting (store : Storage) (w : World) :
  reachable store w -> isSubmitting w = false.
Proof.
  induction 1 as [w H | w w' ev r _ IH _ H].
  - eapply mount_effect_isSubmitting; eassumption.
  - eapply handle_isSubmitting; eassumption.
Qed.

(** ** The claims *)

(** C1.  In every state the component can be in, the submit button is enabled
    exactly when name, company and email are all non-empty after trimming,
    and so is the guard [canSubmit] of the submit handler; the website field
    plays no part.  Whenever one of the three is empty or all white space the
    button is disabled and the handler does nothing but [preventDefault]. *)
Theorem submission_enabled_iff_required_fields
        (store : Storage) (w : World) :
  reachable store w ->
  (submit_disabled w = false <->
     trim (FormState.name (form w)) <> [] /\
     trim (FormState.company (form w)) <> [] /\
     trim (FormState.email (form w)) <> [])
  /\ (JsString.truthy (canSubmit (form w)) = true <->
        trim (FormState.name (form w)) <> [] /\
        trim (FormState.company (form w)) <> [] /\
        trim (FormState.email (form w)) <> [])
  /\ (forall site : jsstring,
        canSubmit {| FormState.name := FormState.name (form w);
                     FormState.company := FormState.company (form w);
                     FormState.email := FormState.email (form w);
                     FormState.website := site |}
        = canSubmit (form w))
  /\ (blank (FormState.name (form w)) = true \/
      blank (FormState.company (form w)) = true \/
      blank (FormState.email (form w)) = true ->
      submit_disabled w = true /\
      handleSignup w = (Normal tt, emit PreventDefault w)).
Proof.
  intros Hr. pose proof (reachable_isSubmitting Hr) as Hs.
  split; [|split; [|split]].
  - unfold submit_disabled. rewrite Hs, orb_false_r, negb_false_iff.
    apply canSubmit_true_iff.
  - apply canSubmit_true_iff.
  - intros site. reflexivity.
  - intros H.
    assert (E : JsString.truthy (canSubmit (form w)) = false).
    { rewrite canSubmit_truthy.
      destruct H as [H | [H | H]]; rewrite H; simpl;
        rewrite ?andb_false_r; reflexivity. }
    split.
    + unfold submit_disabled. now rewrite E.
    + now apply handleSignup_blocked.
Qed.

(** *** The stored profile reads back *)

Lemma parse_value_string (f : nat) (v rest : jsstring) :
  parse_value (S f) (QuoteJSONString v ++ rest) = Parsed (JString v) rest.
Proof.
  unfold QuoteJSONString. cbn [parse_value app skip_ws].
  change (is_json_ws 34) with false. cbv iota.
  change (34 =? 123) with false. change (34 =? 91) with false.
  change (34 =? 34) with true. cbv iota.
  rewrite <- app_assoc. cbn [app].
  now rewrite parse_quote_chars.
Qed.

Lemma parse_member (f : nat) (kv : jsstring * jsstring) (c : code_unit)
      (rest : jsstring) (acc : list (jsstring * JsValue)) :
  is_json_ws c = false ->
  parse_members (S (S f)) (member_text kv ++ c :: rest) acc
  = if c =? 44
    then parse_members (S f) rest (define (fst kv) (JString (snd kv)) acc)
    else if c =? 125
         then Parsed (JObject (define (fst kv) (JString (snd kv)) acc)) rest
         else SyntaxError.
Proof.
  intros Hc. unfold member_text.
  unfold QuoteJSONString at 1.
  cbn [parse_members app skip_ws].
  change (is_json_ws 34) with false. cbv iota.
  change (34 =? 34) with true. cbv iota.
  rewrite <- !app_assoc. cbn [app].
  rewrite parse_quote_chars.
  cbn [skip_ws]. change (is_json_ws 58) with false. cbv iota.
  change (58 =? 58) with true. cbv iota.
  rewrite parse_value_string.
  cbn [skip_ws]. rewrite Hc. reflexivity.
Qed.

Lemma parse_members_written (members : list (jsstring * jsstring)) :
  forall (f : nat) (rest : jsstring) (acc : list (jsstring * JsValue)),
    members <> [] ->
    (List.length members < f)%nat ->
    parse_members f (join_commas (map member_text members) ++ 125 :: rest) acc
    = Parsed (JObject (define_all members acc)) rest.
Proof.
  induction members as [|kv members IH]; intros f rest acc Hne Hf;
    [congruence|].
  destruct f as [|[|f]]; simpl in Hf; try lia.
  destruct members as [|kv' members].
  - cbn [map join_commas]. rewrite parse_member by reflexivity. reflexivity.
  - change (join_commas (map member_text (kv :: kv' :: members)))
      with (member_text kv ++ 44 :: join_commas (map member_text (kv' :: members))).
    rewrite <- app_assoc. cbn [app].
    rewrite parse_member by reflexivity.
    change (44 =? 44) with true. cbv iota.
    rewrite IH; [reflexivity | discriminate | simpl in *; lia].
Qed.

Lemma serialize_written (p : FounderProfile) :
  serialize_members (Founder.props p) = map member_text (written_members p).
Proof.
  unfold Founder.props, written_members.
  destruct (Founder.website p); reflexivity.
Qed.

Lemma member_text_starts (kv : jsstring * jsstring) :
  exists t, member_text kv = 34 :: t.
Proof. unfold member_text, QuoteJSONString. simpl. eauto. Qed.

(** [JSON.parse] on the text [JSON.stringify] wrote for a profile gives an
    object with exactly the members that were written. *)
Lemma JSON_parse_stringify_profile (p : FounderProfile) :
  JSON_parse (JSON_stringify (Founder.props p))
  = Some (JObject (define_all (written_members p) [])).
Proof.
  unfold JSON_parse, JSON_stringify. rewrite serialize_written.
  set (ms := written_members p).
  assert (Hne : ms <> []) by (unfold ms, written_members; discriminate).
  assert (Hlen : (List.length ms <= 5)%nat).
  { unfold ms, written_members. destruct (Founder.website p); simpl; lia. }
  set (body := join_commas (map member_text ms)).
  assert (Hbody : exists t, body = 34 :: t).
  { unfold body. destruct ms as [|kv ms']; [congruence|].
    destruct (member_text_starts kv) as [t Ht].
    destruct ms' as [|kv' ms''].
    - cbn [map join_commas]. rewrite Ht. eauto.
    - change (join_commas (map member_text (kv :: kv' :: ms'')))
        with (member_text kv ++ 44 :: join_commas (map member_text (kv' :: ms''))).
      rewrite Ht. cbn [app]. eauto. }
  destruct Hbody as (t & Ht).
  match goal with
  | |- context [parse_value ?n _] =>
      assert (Hfuel : exists f, n = S f /\ (5 < f)%nat)
  end.
  { rewrite Ht. simpl. rewrite length_app. simpl.
    eexists; split; [reflexivity|]. lia. }
  destruct Hfuel as (f & -> & Hf).
  cbn [parse_value skip_ws]. change (is_json_ws 123) with false. cbv iota.
  change (123 =? 123) with true. cbv iota.
  rewrite Ht at 1. cbn [app skip_ws]. change (is_json_ws 34) with false.
  cbv iota. change (34 =? 125) with false. cbv iota.
  change (34 :: t ++ [125]) with ((34 :: t) ++ [125]). rewrite <- Ht.
  unfold body. rewrite parse_members_written by (assumption || lia).
  reflexivity.
Qed.
Lemma stored_record (p : FounderProfile) :
  define_all (written_members p) []
  = [ (js "id", JString (Founder.id p)); (js "name", JString (Founder.name p));
      (js "company", JString (Founder.company p));
      (js "email", JString (Founder.email p)) ]
    ++ match Founder.website p with
       | Some site => [(js "website", JString site)]
       | None => []
       end.
Proof. unfold written_members. destruct (Founder.website p); reflexivity. Qed.

(** Reading any property gives the same on the object that was parsed back
    and on the object that was serialised: an [undefined] website is a
    missing property on the one and a property holding [undefined] on the
    other. *)
Lemma stored_record_get (p : FounderProfile) (k : jsstring) :
  Json.get (JObject (define_all (written_members p) [])) k
  = Json.get (Founder.value p) k.
Proof.
  rewrite stored_record. unfold Json.get, Founder.value, Founder.props.
  destruct (Founder.website p); cbn [map lookup fst snd app];
    repeat (match goal with
            | |- context [JsString.eqb k ?key] => destruct (JsString.eqb k key)
            end; try reflexivity).
Qed.

Lemma storage_lookup_update (k v : jsstring) (l : list (jsstring * jsstring)) :
  Storage.lookup k (Storage.update k v l) = Some v.
Proof.
  induction l as [|[k' v'] l IH]; simpl.
  - now rewrite eqb_refl'.
  - destruct (JsString.eqb k k') eqn:E; simpl; rewrite E; auto.
Qed.

Lemma getItem_setItem (st st' : Storage) (k v : jsstring) :
  Storage.setItem st k v = Some st' -> Storage.getItem st' k = Some v.
Proof.
  unfold Storage.setItem, Storage.getItem.
  destruct (Storage.quota st) as [q|].
  - destruct (Nat.leb _ q); [|discriminate].
    intros [= <-]. simpl. apply storage_lookup_update.
  - intros [= <-]. simpl. apply storage_lookup_update.
Qed.

Lemma profile_id_cases :
  (user = None -> profile_id = js "local-founder") /\
  (forall u, user = Some u -> user_id u = [] ->
             profile_id = js "local-founder") /\
  (forall u, user = Some u -> user_id u <> [] -> profile_id = user_id u).
Proof.
  unfold profile_id. repeat split.
  - now intros ->.
  - intros u -> E. now rewrite E.
  - intros u -> E. destruct (user_id u); [congruence|reflexivity].
Qed.

(** C2, as amended.  For every submission with non-blank name, company and
    email that the store accepts: the stored text parses to a record whose
    name, company and email are the trimmed inputs; the record has no
    website property when the website input is blank after trimming, and
    holds the trimmed input otherwise; its id is the identifier of the
    authenticated user when there is one and it is not the empty string, and
    the placeholder 'local-founder' when the user is absent or the identifier
    is empty; and the view is the candidate list afterwards. *)
Theorem signup_persists_trimmed_profile (w : World) (st' : Storage) :
  trim (FormState.name (form w)) <> [] ->
  trim (FormState.company (form w)) <> [] ->
  trim (FormState.email (form w)) <> [] ->
  Storage.setItem (localStorage w) PROFILE_KEY
    (JSON_stringify (Founder.props (profile_of (form w)))) = Some st' ->
  exists (w' : World) (text : jsstring) (record : JsValue),
    handleSignup w = (Normal tt, w') /\
    Storage.getItem (localStorage w') PROFILE_KEY = Some text /\
    JSON_parse text = Some record /\
    Json.get record (js "name") = JString (trim (FormState.name (form w))) /\
    Json.get record (js "company")
      = JString (trim (FormState.company (form w))) /\
    Json.get record (js "email") = JString (trim (FormState.email (form w))) /\
    (trim (FormState.website (form w)) = [] ->
       Json.has_own record (js "website") = false) /\
    (trim (FormState.website (form w)) <> [] ->
       Json.get record (js "website")
         = JString (trim (FormState.website (form w)))) /\
    (user = None -> Json.get record (js "id") = JString (js "local-founder")) /\
    (forall u, user = Some u -> user_id u = [] ->
       Json.get record (js "id") = JString (js "local-founder")) /\
    (forall u, user = Some u -> user_id u <> [] ->
       Json.get record (js "id") = JString (user_id u)) /\
    view w' = CandidateListView.
Proof.
  intros Hn Hc He Hset.
  assert (Hcan : JsString.truthy (canSubmit (form w)) = true)
    by (apply canSubmit_true_iff; auto).
  eexists. exists (JSON_stringify (Founder.props (profile_of (form w)))).
  eexists.
  split; [apply (handleSignup_accepted w Hcan Hset)|].
  split; [simpl; apply (getItem_setItem _ _ _ Hset)|].
  split; [apply JSON_parse_stringify_profile|].
  rewrite stored_record.
  destruct profile_id_cases as (I1 & I2 & I3).
  repeat split; try reflexivity.
  - intros E. simpl. rewrite E. reflexivity.
  - intros E. simpl. destruct (trim (FormState.website (form w)));
      [congruence|reflexivity].
  - intros E. simpl. now rewrite (I1 E).
  - intros u E1 E2. simpl. now rewrite (I2 u E1 E2).
  - intros u E1 E2. simpl. now rewrite (I3 u E1 E2).
Qed.

(** C10.  After a successful submission the text stored under the profile key
    parses to a record on which every property, id, name, company, email and
    website among them, reads the same as on the profile held in [founder];
    both gate the view the same way, and a later mount that loads the store
    puts that record into [founder]. *)
Theorem stored_profile_reads_back (w : World) (st' : Storage) :
  JsString.truthy (canSubmit (form w)) = true ->
  Storage.setItem (localStorage w) PROFILE_KEY
    (JSON_stringify (Founder.props (profile_of (form w)))) = Some st' ->
  exists (w' : World) (text : jsstring) (record : JsValue),
    handleSignup w = (Normal tt, w') /\
    Storage.getItem (localStorage w') PROFILE_KEY = Some text /\
    JSON_parse text = Some record /\
    (forall k : jsstring, Json.get record k = Json.get (founder w') k) /\
    ToBoolean record = ToBoolean (founder w') /\
    exists w'' : World,
      mount_effect (initial_world (localStorage w')) = (Normal tt, w'') /\
      founder w'' = record.
Proof.
  intros Hcan Hset.
  eexists. exists (JSON_stringify (Founder.props (profile_of (form w)))).
  eexists.
  split; [apply (handleSignup_accepted w Hcan Hset)|].
  pose proof (getItem_setItem _ _ _ Hset) as Hget.
  split; [exact Hget|].
  split; [apply JSON_parse_stringify_profile|].
  split; [intros k; apply stored_record_get|].
  split; [reflexivity|].
  unfold mount_effect, bind, localStorage_getItem, JSON_parse_or_throw.
  cbn [initial_world localStorage]. rewrite Hget.
  cbn [JSON_stringify JsString.truthy].
  change (123 :: join_commas (serialize_members
                                (Founder.props (profile_of (form w)))) ++ [125])
    with (JSON_stringify (Founder.props (profile_of (form w)))).
  rewrite JSON_parse_stringify_profile.
  eexists. split; reflexivity.
Qed.

(** *** The mount effect *)

Lemma mount_without_profile (store : Storage) :
  saved_profile_text store = None ->
  mount_effect (initial_world store)
  = (Normal tt,
     {| founder := JNull; form := FormState.empty; students := mock;
        isSubmitting := false; localStorage := store;
        log := [StorageGetItem PROFILE_KEY; SetStudents mock] |}).
Proof.
  unfold saved_profile_text, mount_effect, bind, localStorage_getItem.
  cbn [initial_world localStorage].
  destruct (Storage.getItem store PROFILE_KEY) as [text|]; [|reflexivity].
  destruct (JsString.truthy text); [discriminate|reflexivity].
Qed.

Lemma mount_with_parsed_profile (store : Storage) (text : jsstring)
      (v : JsValue) :
  saved_profile_text store = Some text ->
  JSON_parse text = Some v ->
  mount_effect (initial_world store)
  = (Normal tt,
     {| founder := v; form := FormState.empty; students := mock;
        isSubmitting := false; localStorage := store;
        log := [StorageGetItem PROFILE_KEY; SetFounder v;
                SetStudents mock] |}).
Proof.
  unfold saved_profile_text, mount_effect, bind, localStorage_getItem,
    JSON_parse_or_throw.
  cbn [initial_world localStorage].
  destruct (Storage.getItem store PROFILE_KEY) as [t|]; [|discriminate].
  destruct (JsString.truthy t); [|discriminate].
  intros [= ->] ->. reflexivity.
Qed.

Lemma mount_with_malformed_profile (store : Storage) (text : jsstring) :
  saved_profile_text store = Some text ->
  JSON_parse text = None ->
  mount_effect (initial_world store)
  = (Throw SyntaxError_thrown,
     {| founder := JNull; form := FormState.empty; students := [];
        isSubmitting := false; localStorage := store;
        log := [StorageGetItem PROFILE_KEY] |}).
Proof.
  unfold saved_profile_text, mount_effect, bind, localStorage_getItem,
    JSON_parse_or_throw.
  cbn [initial_world localStorage].
  destruct (Storage.getItem store PROFILE_KEY) as [t|]; [|discriminate].
  destruct (JsString.truthy t); [|discriminate].
  intros [= ->] ->. reflexivity.
Qed.

(** What the mount effect leaves when it completes. *)
Lemma mount_completed (store : Storage) (w : World) :
  mount_effect (initial_world store) = (Normal tt, w) ->
  students w = mock /\
  (founder w = JNull \/
   exists text, saved_profile_text store = Some text /\
                JSON_parse text = Some (founder w)).
Proof.
  destruct (saved_profile_text store) as [text|] eqn:Es.
  - destruct (JSON_parse text) as [v|] eqn:Ep.
    + rewrite (mount_with_parsed_profile _ Es Ep). intros [= <-]. simpl.
      split; [reflexivity|]. right. eauto.
    + rewrite (mount_with_malformed_profile _ Es Ep). discriminate.
  - rewrite (mount_without_profile _ Es). intros [= <-]. simpl. auto.
Qed.

(** *** One event *)

(** What the handler of an event can do to [founder] and [students]: nothing,
    except for an accepted submission, which puts the new profile in. *)
Lemma handle_founder (ev : Event) (w w' : World) (r : Completion unit) :
  handle ev w = (r, w') ->
  students w' = students w /\
  (founder w' = founder w \/
   ev = SubmitForm /\ r = Normal tt /\
   JsString.truthy (canSubmit (form w)) = true /\
   founder w' = Founder.value (profile_of (form w)) /\
   Storage.getItem (localStorage w') PROFILE_KEY
   = Some (JSON_stringify (Founder.props (profile_of (form w))))).
Proof.
  intros H. destruct ev; simpl in H;
    try (injection H as _ <-; simpl; auto).
  - destruct (JsString.truthy (canSubmit (form w))) eqn:Ec.
    + destruct (Storage.setItem (localStorage w) PROFILE_KEY
                  (JSON_stringify (Founder.props (profile_of (form w)))))
        as [st'|] eqn:Es.
      * rewrite (handleSignup_accepted w Ec Es) in H.
        injection H as <- <-. simpl. split; [reflexivity|]. right.
        repeat split. apply (getItem_setItem _ _ _ Es).
      * rewrite (handleSignup_rejected w Ec Es) in H.
        injection H as _ <-. simpl. auto.
    + rewrite (handleSignup_blocked w Ec) in H.
      injection H as _ <-. simpl. auto.
  - unfold bind, read in H.
    destruct (nth_error (students w) index) as [st|];
      [change (handleContact st w = (r, w')) in H;
       destruct (handleContact_cases st w)
         as [(href & _ & Hc) | (_ & Hc)]; rewrite Hc in H|];
      injection H as _ <-; simpl; auto.
  - unfold bind, read in H. destruct (nth_error (students w) index);
      injection H as _ <-; simpl; auto.
Qed.

Lemma reachable_students (store : Storage) (w : World) :
  reachable store w -> students w = mock.
Proof.
  induction 1 as [w H | w w' ev r _ IH _ H].
  - apply (mount_completed _ H).
  - destruct (handle_founder _ _ H) as [E _]. congruence.
Qed.

(** Where the value of [founder] comes from: nothing was loaded or created,
    or the mount effect loaded it from the store, or a submission created
    it. *)
Lemma reachable_founder (store : Storage) (w : World) :
  reachable store w ->
  founder w = JNull \/
  (exists text, saved_profile_text store = Some text /\
                JSON_parse text = Some (founder w)) \/
  (exists f : Form, founder w = Founder.value (profile_of f)).
Proof.
  induction 1 as [w H | w w' ev r _ IH _ H].
  - destruct (mount_completed _ H) as [_ [E | E]]; auto.
  - destruct (handle_founder _ _ H) as [_ [E | (_ & _ & _ & E & _)]].
    + rewrite E. exact IH.
    + right. right. eauto.
Qed.

(** C4, as amended.  Whenever the stored profile value is absent, empty or
    parses as JSON, the mount effect completes and the candidate list then
    holds exactly the three literal entries u1, u2, u3 in that order; it
    holds them in every state reached afterwards, and the list view puts
    all three on the page as they are. *)
Theorem candidates_are_the_fixed_three (store : Storage) :
  (forall text, saved_profile_text store = Some text ->
                JSON_parse text <> None) ->
  (exists w0, mount_effect (initial_world store) = (Normal tt, w0) /\
              students w0 = mock) /\
  forall w : World,
    reachable store w ->
    students w = mock /\
    map Student.id (students w) = [js "u1"; js "u2"; js "u3"] /\
    (view w = CandidateListView -> candidates_shown w = mock).
Proof.
  intros Hparse. split.
  - destruct (saved_profile_text store) as [text|] eqn:Es.
    + destruct (JSON_parse text) as [v|] eqn:Ep;
        [|now destruct (Hparse text eq_refl)].
      eexists. split; [apply (mount_with_parsed_profile _ Es Ep)|reflexivity].
    + eexists. split; [apply (mount_without_profile _ Es)|reflexivity].
  - intros w Hw. pose proof (reachable_students Hw) as E.
    split; [exact E|]. split; [now rewrite E|].
    intros Hv. unfold candidates_shown. now rewrite Hv.
Qed.

(** C9, as amended.  When the stored profile value is present, not empty and
    not well-formed JSON, the mount effect does not handle the failure: the
    SyntaxError of [JSON.parse] leaves the effect, before the candidate list
    is set.  No founder profile is set, and the candidate list stays
    empty. *)
Theorem malformed_profile_aborts_mount (store : Storage) (text : jsstring) :
  Storage.getItem store PROFILE_KEY = Some text ->
  text <> [] ->
  JSON_parse text = None ->
  exists w : World,
    mount_effect (initial_world store) = (Throw SyntaxError_thrown, w) /\
    founder w = JNull /\
    students w = [] /\
    log w = [StorageGetItem PROFILE_KEY] /\
    view w = FormView.
Proof.
  intros Hget Hne Hparse.
  assert (Es : saved_profile_text store = Some text).
  { unfold saved_profile_text. rewrite Hget.
    destruct text; [congruence|reflexivity]. }
  eexists. split; [apply (mount_with_malformed_profile _ Es Hparse)|].
  now simpl.
Qed.

(** *** Contact and Hire *)

(** C7.  A submission that passes the guard raises the submitting flag just
    before it writes to the store and lowers it as its last effect, whether
    the store accepts the write or throws; between the write and the
    lowering of the flag lies only the update of [founder], when the write
    was accepted.  More generally the flag is down after
    [try { body } finally { setIsSubmitting(false) }] whatever [body] is and
    however it completes, and the completion of [body] is that of the
    whole. *)
Theorem submitting_flag_brackets_the_write (w : World) :
  JsString.truthy (canSubmit (form w)) = true ->
  let text := JSON_stringify (Founder.props (profile_of (form w))) in
  (exists (r : Completion unit) (w' : World) (between : list Effect),
     handleSignup w = (r, w') /\
     log w' = log w
              ++ [PreventDefault; SetIsSubmitting true;
                  StorageSetItem PROFILE_KEY text]
              ++ between ++ [SetIsSubmitting false] /\
     isSubmitting w' = false /\
     match Storage.setItem (localStorage w) PROFILE_KEY text with
     | Some st' =>
         r = Normal tt /\
         between = [SetFounder (Founder.value (profile_of (form w)))] /\
         localStorage w' = st'
     | None =>
         r = Throw QuotaExceededError /\ between = [] /\
         localStorage w' = localStorage w /\ founder w' = founder w
     end) /\
  (forall (body : M unit) (w0 : World),
     exists (w1 : World),
       (setIsSubmitting true ;;
        try_finally body (setIsSubmitting false)) w0
       = (fst (body (snd (setIsSubmitting true w0))), w1) /\
       isSubmitting w1 = false /\
       log w1 = log (snd (body (snd (setIsSubmitting true w0))))
                ++ [SetIsSubmitting false]).
Proof.
  intros Hcan. cbv zeta. split.
  - destruct (Storage.setItem (localStorage w) PROFILE_KEY
                (JSON_stringify (Founder.props (profile_of (form w)))))
      as [st'|] eqn:Es.
    + eexists _, _, _.
      split; [apply (handleSignup_accepted w Hcan Es)|].
      simpl. repeat split; reflexivity.
    + eexists _, _, [].
      split; [apply (handleSignup_rejected w Hcan Es)|].
      simpl. repeat split; reflexivity.
  - intros body w0. unfold bind, try_finally, setIsSubmitting. simpl.
    destruct (body _) as [r w1]. simpl.
    eexists. split; [reflexivity|]. split; reflexivity.
Qed.

(** C8.  Hire shows one alert and does nothing else: the candidate list, the
    founder profile, the form, the flag and the store are what they were,
    and the alert is the only effect; the same holds when Hire is invoked
    from the button of a listed candidate. *)
Theorem hire_changes_nothing (student : StudentCandidate) (w : World) :
  (exists w' : World,
     handleHire student w = (Normal tt, w') /\
     students w' = students w /\
     founder w' = founder w /\
     localStorage w' = localStorage w /\
     form w' = form w /\
     isSubmitting w' = isSubmitting w /\
     view w' = view w /\
     log w' = log w
              ++ [Alert (js "Hiring request sent for "
                         ++ Student.name student)]) /\
  (forall i : nat,
     nth_error (students w) i = Some student ->
     handle (ClickHire i) w = handleHire student w).
Proof.
  split.
  - eexists. split; [reflexivity|]. simpl. repeat split; reflexivity.
  - intros i H. simpl. unfold bind, read. now rewrite H.
Qed.

(** ** Further properties of the code *)

(** *** Trimming *)

Lemma trimStart_head (s r : jsstring) (c : code_unit) :
  trimStart s = c :: r -> is_white_space c = false.
Proof.
  induction s as [|x s IH]; simpl; [discriminate|].
  destruct (is_white_space x) eqn:E; [exact IH|].
  intros [= <- _]. exact E.
Qed.

Lemma trimStart_fixed (s : jsstring) (c : code_unit) (r : jsstring) :
  s = c :: r -> is_white_space c = false -> trimStart s = s.
Proof. intros -> H. simpl. now rewrite H. Qed.

(** What [trimStart] strips is white space, in front of what it keeps. *)
Lemma trimStart_split (s : jsstring) :
  exists ws, s = ws ++ trimStart s /\ blank ws = true.
Proof.
  induction s as [|x s (ws & E & B)]; simpl.
  - now exists [].
  - destruct (is_white_space x) eqn:Ex.
    + exists (x :: ws). simpl. rewrite Ex, B. split; [now f_equal|reflexivity].
    + now exists [].
Qed.

Lemma rev_last (s : jsstring) (d : code_unit) :
  s <> [] -> rev s = last s d :: rev (removelast s).
Proof.
  intros H. rewrite (app_removelast_last d H) at 1.
  now rewrite rev_app_distr.
Qed.

Lemma trim_no_outer_white_space (s : jsstring) :
  no_outer_white_space (trim s) = true.
Proof.
  unfold trim, trimEnd.
  destruct (trimStart_split (rev (trimStart s))) as (ws & E & _).
  destruct (trimStart (rev (trimStart s))) as [|c u] eqn:Eu; [reflexivity|].
  pose proof (trimStart_head _ Eu) as Hc.
  assert (Hpre : trimStart s = rev (c :: u) ++ rev ws).
  { rewrite <- rev_app_distr, <- E. now rewrite rev_involutive. }
  destruct (rev (c :: u)) as [|h t] eqn:Er.
  { apply (f_equal (@List.length _)) in Er. rewrite length_rev in Er.
    discriminate. }
  unfold no_outer_white_space.
  assert (Hh : is_white_space h = false)
    by (apply (trimStart_head s (r := t ++ rev ws)); exact Hpre).
  assert (Hl : last (h :: t) h = c).
  { rewrite <- Er. simpl. apply last_last. }
  now rewrite Hh, Hl, Hc.
Qed.

Lemma no_outer_white_space_trim (s : jsstring) :
  no_outer_white_space s = true -> trim s = s.
Proof.
  destruct s as [|c r]; [reflexivity|].
  unfold no_outer_white_space. intros H.
  apply andb_true_iff in H as [Hc Hl]. apply negb_true_iff in Hc, Hl.
  unfold trim, trimEnd.
  rewrite (trimStart_fixed (s := c :: r) eq_refl Hc).
  rewrite (@rev_last (c :: r) c) by discriminate.
  rewrite (trimStart_fixed eq_refl Hl).
  rewrite <- (@rev_last (c :: r) c) by discriminate.
  apply rev_involutive.
Qed.

(** X4.  The strings [trim] leaves as they are are exactly those with no
    white space at either end, and [trim] always gives such a string; so
    trimming twice is trimming once. *)
Theorem trim_fixed_points (s : jsstring) :
  (trim s = s <-> no_outer_white_space s = true) /\
  no_outer_white_space (trim s) = true /\
  trim (trim s) = trim s.
Proof.
  split; [split|split].
  - intros E. rewrite <- E. apply trim_no_outer_white_space.
  - apply no_outer_white_space_trim.
  - apply trim_no_outer_white_space.
  - apply no_outer_white_space_trim, trim_no_outer_white_space.
Qed.

(** *** One event, again *)

Lemma enabled_list_view (w : World) (i : nat) :
  enabled w (ClickContact i) = true \/ enabled w (ClickHire i) = true ->
  view w = CandidateListView /\
  exists student, nth_error (students w) i = Some student.
Proof.
  unfold enabled. destruct (view w); intros [H | H]; try discriminate;
    (split; [reflexivity|]);
    destruct (nth_error (students w) i) as [st|]; try discriminate; eauto.
Qed.

Lemma enabled_form_view (w : World) (ev : Event) :
  enabled w ev = true -> view w = FormView ->
  ev = SubmitForm \/ exists fv, change_of ev = Some fv.
Proof.
  unfold enabled. intros H Hv. rewrite Hv in H.
  destruct ev; simpl; try discriminate; eauto.
Qed.

(** The effects an enabled event adds to the log. *)
Lemma handle_effects (ev : Event) (w w' : World) (r : Completion unit) :
  enabled w ev = true ->
  handle ev w = (r, w') ->
  exists added, log w' = log w ++ added /\ Forall (handler_effect w) added.
Proof.
  intros Hen H. destruct ev; simpl in H;
    try (injection H as _ <-; simpl; eexists; split; [reflexivity|];
         repeat constructor).
  - destruct (JsString.truthy (canSubmit (form w))) eqn:Ec.
    + destruct (Storage.setItem (localStorage w) PROFILE_KEY
                  (JSON_stringify (Founder.props (profile_of (form w)))))
        as [st'|] eqn:Es.
      * rewrite (handleSignup_accepted w Ec Es) in H.
        injection H as _ <-. simpl. eexists; split; [reflexivity|].
        repeat constructor.
      * rewrite (handleSignup_rejected w Ec Es) in H.
        injection H as _ <-. simpl. eexists; split; [reflexivity|].
        repeat constructor.
    + rewrite (handleSignup_blocked w Ec) in H.
      injection H as _ <-. simpl. eexists; split; [reflexivity|].
      repeat constructor.
  - destruct (enabled_list_view w index (or_introl Hen)) as (Hv & st & Hst).
    unfold bind, read in H. rewrite Hst in H.
    change (handleContact st w = (r, w')) in H.
    destruct (handleContact_cases st w) as [(href & Eh & Hc) | (_ & Hc)];
      rewrite Hc in H; injection H as _ <-.
    + simpl. eexists; split; [reflexivity|]. constructor; [|constructor].
      simpl. split; [exact Hv|]. exists st. split; [|exact Eh].
      eapply nth_error_In; eassumption.
    + exists []. rewrite app_nil_r. split; [reflexivity|constructor].
  - destruct (enabled_list_view w index (or_intror Hen)) as (Hv & st & Hst).
    unfold bind, read in H. rewrite Hst in H. injection H as _ <-. simpl.
    eexists; split; [reflexivity|]. constructor; [|constructor].
    simpl. split; [exact Hv|]. exists st. split; [|reflexivity].
    eapply nth_error_In; eassumption.
Qed.

(** What the handler of an event can do to the store: nothing, or one
    accepted write to the profile key. *)
Lemma handle_store (ev : Event) (w w' : World) (r : Completion unit) :
  handle ev w = (r, w') ->
  localStorage w' = localStorage w \/
  exists text,
    Storage.setItem (localStorage w) PROFILE_KEY text
    = Some (localStorage w').
Proof.
  intros H. destruct ev; simpl in H;
    try (injection H as _ <-; simpl; auto).
  - destruct (JsString.truthy (canSubmit (form w))) eqn:Ec.
    + destruct (Storage.setItem (localStorage w) PROFILE_KEY
                  (JSON_stringify (Founder.props (profile_of (form w)))))
        as [st'|] eqn:Es.
      * rewrite (handleSignup_accepted w Ec Es) in H.
        injection H as _ <-. simpl. eauto.
      * rewrite (handleSignup_rejected w Ec Es) in H.
        injection H as _ <-. simpl. auto.
    + rewrite (handleSignup_blocked w Ec) in H.
      injection H as _ <-. simpl. auto.
  - unfold bind, read in H.
    destruct (nth_error (students w) index) as [st|];
      [change (handleContact st w = (r, w')) in H;
       destruct (handleContact_cases st w)
         as [(href & _ & Hc) | (_ & Hc)]; rewrite Hc in H|];
      injection H as _ <-; simpl; auto.
  - unfold bind, read in H. destruct (nth_error (students w) index);
      injection H as _ <-; simpl; auto.
Qed.

Lemma storage_lookup_update_other (k k0 v : jsstring)
      (l : list (jsstring * jsstring)) :
  k <> k0 -> Storage.lookup k (Storage.update k0 v l) = Storage.lookup k l.
Proof.
  intros Hk.
  assert (E0 : JsString.eqb k k0 = false).
  { destruct (JsString.eqb k k0) eqn:E; [|reflexivity].
    apply eqb_eq' in E. contradiction. }
  induction l as [|[k' v'] l IH]; simpl.
  - now rewrite E0.
  - destruct (JsString.eqb k0 k') eqn:E; simpl.
    + apply eqb_eq' in E. subst k'. now rewrite E0.
    + now rewrite IH.
Qed.

Lemma setItem_frame (st st' : Storage) (k0 v : jsstring) :
  Storage.setItem st k0 v = Some st' ->
  Storage.quota st' = Storage.quota st /\
  forall k, k <> k0 -> Storage.getItem st' k = Storage.getItem st k.
Proof.
  unfold Storage.setItem, Storage.getItem.
  destruct (Storage.quota st) as [q|].
  - destruct (Nat.leb _ q); [|discriminate].
    intros [= <-]. simpl. split; [reflexivity|].
    intros k Hk. now apply storage_lookup_update_other.
  - intros [= <-]. simpl. split; [reflexivity|].
    intros k Hk. now apply storage_lookup_update_other.
Qed.

Lemma mount_world (store : Storage) (w : World) :
  mount_effect (initial_world store) = (Normal tt, w) ->
  localStorage w = store /\ form w = FormState.empty /\
  (log w = [StorageGetItem PROFILE_KEY; SetStudents mock] \/
   exists v, log w = [StorageGetItem PROFILE_KEY; SetFounder v;
                      SetStudents mock]).
Proof.
  destruct (saved_profile_text store) as [text|] eqn:Es.
  - destruct (JSON_parse text) as [v|] eqn:Ep.
    + rewrite (mount_with_parsed_profile _ Es Ep). intros [= <-]. simpl.
      eauto.
    + rewrite (mount_with_malformed_profile _ Es Ep). discriminate.
  - rewrite (mount_without_profile _ Es). intros [= <-]. simpl. auto.
Qed.

Lemma handler_effect_no_read (w : World) (added : list Effect) :
  Forall (handler_effect w) added -> filter is_storage_read added = [].
Proof.
  induction 1 as [|e l He _ IH]; simpl; [reflexivity|].
  destruct e; simpl in *; try exact IH. contradiction.
Qed.

(** X1.  The component touches the store at the profile key only.  In every
    state reached after the mount effect, every other key holds what it held
    before the component was mounted and the quota is the same; the store was
    read exactly once, by the mount effect; and every read and write in the
    log is at the profile key. *)
Theorem store_touched_at_profile_key_only (store : Storage) (w : World) :
  reachable store w ->
  (forall k, k <> PROFILE_KEY ->
             Storage.getItem (localStorage w) k = Storage.getItem store k) /\
  Storage.quota (localStorage w) = Storage.quota store /\
  List.length (filter is_storage_read (log w)) = 1%nat /\
  (forall k, In (StorageGetItem k) (log w) -> k = PROFILE_KEY) /\
  (forall k v, In (StorageSetItem k v) (log w) -> k = PROFILE_KEY).
Proof.
  induction 1 as [w H | w w' ev r _ IH Hen H].
  - destruct (mount_world _ H) as (-> & _ & Hlog).
    split; [reflexivity|]. split; [reflexivity|].
    destruct Hlog as [-> | (v0 & ->)]; simpl.
    + split; [reflexivity|]. split.
      * intros k [E | [E | []]]; [|discriminate].
        injection E as <-. reflexivity.
      * intros k v [E | [E | []]]; discriminate.
    + split; [reflexivity|]. split.
      * intros k [E | [E | [E | []]]]; try discriminate.
        injection E as <-. reflexivity.
      * intros k v [E | [E | [E | []]]]; discriminate.
  - destruct IH as (Ik & Iq & Ir & Ig & Is).
    destruct (handle_effects _ _ Hen H) as (added & El & Hadd).
    assert (Hstore : (forall k, k <> PROFILE_KEY ->
                        Storage.getItem (localStorage w') k
                        = Storage.getItem (localStorage w) k) /\
                     Storage.quota (localStorage w')
                     = Storage.quota (localStorage w)).
    { destruct (handle_store _ _ H) as [-> | (text & Es)]; [auto|].
      destruct (setItem_frame _ _ _ Es) as [Q F]. auto. }
    destruct Hstore as [Hk Hq].
    split; [intros k Hne; rewrite Hk by exact Hne; now apply Ik|].
    split; [congruence|].
    rewrite El. split.
    { rewrite filter_app, length_app,
        (handler_effect_no_read Hadd). simpl. lia. }
    rewrite Forall_forall in Hadd. split.
    + intros k Hin. apply in_app_or in Hin as [Hin | Hin]; [now apply Ig|].
      specialize (Hadd _ Hin). contradiction.
    + intros k v Hin. apply in_app_or in Hin as [Hin | Hin];
        [now apply (Is k v)|].
      exact (Hadd _ Hin).
Qed.

(** *** The list view, the form view *)

Lemma list_view_event (ev : Event) (w w' : World) (r : Completion unit) :
  view w = CandidateListView ->
  enabled w ev = true ->
  handle ev w = (r, w') ->
  founder w' = founder w /\ form w' = form w /\
  students w' = students w /\ isSubmitting w' = isSubmitting w /\
  localStorage w' = localStorage w /\
  ((r = Normal tt /\
    (is_hire_click ev = true \/ company_or_default (founder w) <> None) /\
    exists e, log w' = log w ++ [e] /\ is_navigation_or_alert e = true) \/
   (r = Throw TypeError_thrown /\ is_hire_click ev = false /\
    company_or_default (founder w) = None /\ log w' = log w)).
Proof.
  intros Hv Hen H. unfold enabled in Hen. rewrite Hv in Hen.
  destruct ev; try discriminate; simpl in H; unfold bind, read in H;
    destruct (nth_error (students w) index) as [st|]; try discriminate.
  - change (handleContact st w = (r, w')) in H.
    destruct (handleContact_cases st w) as [(href & Eh & Hc) | (Eh & Hc)];
      rewrite Hc in H; injection H as <- <-; simpl;
      repeat (split; [reflexivity|]);
      unfold contact_href in Eh;
      destruct (company_or_default (founder w)); try discriminate.
    + left. split; [reflexivity|]. split; [right; discriminate|]. eauto.
    + right. auto.
  - injection H as <- <-. simpl. repeat (split; [reflexivity|]).
    left. split; [reflexivity|]. split; [now left|]. eauto.
Qed.

Lemma view_of_founder (w w' : World) :
  founder w' = founder w -> view w' = view w.
Proof. unfold view. now intros ->. Qed.

(** X2.  The list view is read-only.  Whatever events follow once the
    candidate list is shown, the founder profile, the form, the candidate
    list, the flag and the store stay as they are and the list view stays.
    The only effects are navigations to mail links and alerts, at most one
    for each event: one for each event when the company of the founder
    prints, and one for each Hire click alone when it does not, a Contact
    click then ending in a TypeError without any effect. *)
Theorem list_view_is_read_only (evs : list Event) :
  forall w w' : World,
    view w = CandidateListView ->
    run evs w = Some w' ->
    founder w' = founder w /\ form w' = form w /\
    students w' = students w /\ isSubmitting w' = isSubmitting w /\
    localStorage w' = localStorage w /\ view w' = CandidateListView /\
    exists added,
      log w' = log w ++ added /\
      forallb is_navigation_or_alert added = true /\
      (List.length added <= List.length evs)%nat /\
      (company_or_default (founder w) <> None ->
       List.length added = List.length evs) /\
      (company_or_default (founder w) = None ->
       List.length added = List.length (filter is_hire_click evs)).
Proof.
  induction evs as [|ev evs IH]; intros w w' Hv Hrun; simpl in Hrun.
  - injection Hrun as <-. repeat split; try assumption.
    exists []. rewrite app_nil_r. simpl. auto.
  - destruct (enabled w ev) eqn:Hen; [|discriminate].
    destruct (handle ev w) as [r w1] eqn:Hh. simpl in Hrun.
    destruct (@list_view_event ev w w1 r Hv Hen Hh)
      as (Ef & Efo & Est & Esu & Elo & Hcase).
    assert (Hv1 : view w1 = CandidateListView)
      by (rewrite (@view_of_founder w w1 Ef); exact Hv).
    destruct (IH w1 w' Hv1 Hrun)
      as (If & Ifo & Ist & Isu & Ilo & Iv & added & Il & Ia & Ile & Ip & In').
    rewrite Ef in Ip, In'.
    repeat split; try congruence.
    destruct Hcase as [(_ & Hk & e & El & He) | (_ & Hh' & Hnone & El)].
    + exists (e :: added).
      split; [rewrite Il, El, <- app_assoc; reflexivity|].
      split; [simpl; now rewrite He, Ia|].
      split; [simpl; lia|]. split.
      * intros Hp. simpl. now rewrite Ip.
      * intros Hnone. destruct Hk as [Hk | Hk]; [|contradiction].
        cbn [filter]. rewrite Hk. simpl. now rewrite In'.
    + exists added.
      split; [now rewrite Il, El|]. split; [exact Ia|].
      split; [simpl; lia|]. split.
      * intros Hp. contradiction.
      * intros _. cbn [filter]. rewrite Hh'. now apply In'.
Qed.

Lemma change_event (ev : Event) (fld : Field) (v : jsstring)
      (w w' : World) (r : Completion unit) :
  change_of ev = Some (fld, v) ->
  handle ev w = (r, w') ->
  founder w' = founder w /\ students w' = students w /\
  isSubmitting w' = isSubmitting w /\ localStorage w' = localStorage w /\
  forall fld', field_value fld' (form w')
               = if same_field fld' fld then v
                 else field_value fld' (form w).
Proof.
  intros Hc H.
  destruct ev; try discriminate; simpl in Hc; injection Hc as <- <-;
    simpl in H; injection H as _ <-; simpl; repeat split;
    intros []; reflexivity.
Qed.

(** X8.  Typing into the form.  After any sequence of changes to the inputs
    of the form, each of the four fields holds the value last typed into it,
    or its former value when nothing was typed into it; the founder profile,
    the candidate list, the flag and the store are untouched and the form is
    still shown. *)
Theorem form_holds_last_typed_values (evs : list Event) :
  forall w : World,
    view w = FormView ->
    (forall ev, In ev evs -> change_of ev <> None) ->
    exists w' : World,
      run evs w = Some w' /\
      (forall fld, field_value fld (form w')
                   = last_typed fld evs (field_value fld (form w))) /\
      founder w' = founder w /\ students w' = students w /\
      isSubmitting w' = isSubmitting w /\
      localStorage w' = localStorage w /\ view w' = FormView.
Proof.
  induction evs as [|ev evs IH]; intros w Hv Hall.
  - exists w. simpl. repeat split; auto.
  - assert (Hev : change_of ev <> None) by (apply Hall; now left).
    destruct (change_of ev) as [[fld v]|] eqn:Hc; [|congruence].
    assert (Hen : enabled w ev = true).
    { unfold enabled. rewrite Hv. destruct ev; try discriminate;
        reflexivity. }
    destruct (handle ev w) as [r w1] eqn:Hh.
    destruct (@change_event ev fld v w w1 r Hc Hh) as (Ef & Est & Esu & Elo & Efld).
    assert (Hv1 : view w1 = FormView)
      by (rewrite (@view_of_founder w w1 Ef); exact Hv).
    destruct (IH w1 Hv1) as (w' & Hrun & If & Ifo & Ist & Isu & Ilo & Iv).
    { intros ev' Hin. apply Hall. now right. }
    exists w'. simpl. rewrite Hen, Hh. simpl.
    split; [exact Hrun|].
    split.
    { intros fld'. rewrite If, Efld, Hc.
      destruct (same_field fld' fld); reflexivity. }
    repeat split; congruence.
Qed.

(** X5.  No render sees the submitting flag up: the submit handler raises and
    lowers it in one run, so in every state reached after the mount effect
    the flag is down, the button reads 'Save profile', never 'Saving...',
    and the button is disabled by the required fields alone. *)
Theorem saving_label_never_shown (store : Storage) (w : World) :
  reachable store w ->
  isSubmitting w = false /\
  submit_label w = js "Save profile" /\
  submit_label w <> js "Saving..." /\
  submit_disabled w = negb (JsString.truthy (canSubmit (form w))).
Proof.
  intros Hr. pose proof (reachable_isSubmitting Hr) as Hs.
  unfold submit_label, submit_disabled. rewrite Hs.
  repeat split; [discriminate | apply orb_false_r].
Qed.

(** X9.  Contact and Hire act on listed candidates only, and only once a
    profile is there.  In every state reached after the mount effect, every
    navigation in the log went to the contact link of one of the three listed
    candidates, built with a truthy founder value; every alert carried the
    hire message of one of them; and as long as the form is shown the log
    holds no navigation and no alert. *)
Theorem contact_and_hire_need_a_profile (store : Storage) (w : World) :
  reachable store w ->
  (forall href, In (Navigate href) (log w) ->
     exists student v,
       In student mock /\ ToBoolean v = true /\
       contact_href student v = Some href) /\
  (forall message, In (Alert message) (log w) ->
     exists student,
       In student mock /\
       message = js "Hiring request sent for " ++ Student.name student) /\
  (view w = FormView ->
   forall e, In e (log w) -> is_navigation_or_alert e = false).
Proof.
  induction 1 as [w H | w w' ev r Hr IH Hen H].
  - destruct (mount_world _ H) as (_ & _ & Hlog).
    assert (Hplain : forall e, In e (log w) -> is_navigation_or_alert e = false).
    { destruct Hlog as [-> | (v0 & ->)]; simpl; intros e Hin;
        repeat (destruct Hin as [<- | Hin]; [reflexivity|]);
        contradiction. }
    split; [|split].
    + intros href Hin. apply Hplain in Hin. discriminate.
    + intros m Hin. apply Hplain in Hin. discriminate.
    + intros _. exact Hplain.
  - destruct IH as (In' & Ia & Iform).
    destruct (handle_effects _ _ Hen H) as (added & El & Hadd).
    rewrite Forall_forall in Hadd.
    pose proof (reachable_students Hr) as Hst.
    assert (Hlist : view w = CandidateListView -> ToBoolean (founder w) = true).
    { unfold view. destruct (ToBoolean (founder w)); [reflexivity|discriminate]. }
    rewrite El. split; [|split].
    + intros href Hin. apply in_app_or in Hin as [Hin | Hin];
        [now apply In'|].
      destruct (Hadd _ Hin) as (Hv & st & Hs & Eh). rewrite Hst in Hs.
      exists st, (founder w). auto.
    + intros m Hin. apply in_app_or in Hin as [Hin | Hin]; [now apply Ia|].
      destruct (Hadd _ Hin) as (Hv & st & Hs & ->). rewrite Hst in Hs.
      exists st. auto.
    + intros Hv' e Hin.
      assert (Hv : view w = FormView).
      { destruct (handle_founder _ _ H) as [_ [E | (_ & _ & _ & E & _)]].
        - now rewrite <- (@view_of_founder w w' E).
        - unfold view in Hv'. rewrite E in Hv'. discriminate. }
      apply in_app_or in Hin as [Hin | Hin]; [now apply Iform|].
      specialize (Hadd _ Hin).
      destruct e; try reflexivity; simpl in Hadd;
        destruct Hadd as [Hl _]; congruence.
Qed.

(** *** Profiles *)

(** X3.  What a submission stores is normalised.  For every form that passes
    the guard, the name, company and email of the profile built from it are
    non-empty and carry no white space at either end, and so does the website
    when there is one.  Typing the fields of that profile back into the form
    passes the guard again and builds the same profile. *)
Theorem stored_fields_are_normalised (f : Form) :
  JsString.truthy (canSubmit f) = true ->
  let p := profile_of f in
  (Founder.name p <> [] /\ no_outer_white_space (Founder.name p) = true) /\
  (Founder.company p <> [] /\
   no_outer_white_space (Founder.company p) = true) /\
  (Founder.email p <> [] /\ no_outer_white_space (Founder.email p) = true) /\
  (forall site, Founder.website p = Some site ->
                site <> [] /\ no_outer_white_space site = true) /\
  JsString.truthy (canSubmit (form_of_profile p)) = true /\
  profile_of (form_of_profile p) = p.
Proof.
  intros Hcan. cbv zeta.
  pose proof Hcan as H. apply canSubmit_true_iff in H as (Hn & Hc & He).
  assert (T : forall s, trim (trim s) = trim s)
    by (intros s; apply no_outer_white_space_trim,
          trim_no_outer_white_space).
  split; [split; [exact Hn | apply trim_no_outer_white_space]|].
  split; [split; [exact Hc | apply trim_no_outer_white_space]|].
  split; [split; [exact He | apply trim_no_outer_white_space]|].
  split.
  { simpl. intros site.
    destruct (trim (FormState.website f)) as [|c r] eqn:Ew; simpl;
      [discriminate|].
    intros [= <-]. split; [discriminate|].
    rewrite <- Ew. apply trim_no_outer_white_space. }
  split.
  { apply canSubmit_true_iff. simpl. rewrite !T. auto. }
  unfold profile_of, form_of_profile. simpl. rewrite !T. f_equal.
  destruct (trim (FormState.website f)) as [|c r] eqn:Ew; simpl;
    [reflexivity|].
  rewrite <- Ew, T, Ew. reflexivity.
Qed.

Lemma company_of_profile (p : FounderProfile) :
  Founder.company p <> [] ->
  company_or_default (Founder.value p) = Some (Founder.company p).
Proof.
  destruct p as [i n c e s]. simpl. intros H.
  destruct c; [congruence|reflexivity].
Qed.

(** X6.  The mount effect takes whatever JSON is stored.  When the stored
    text is truthy and parses, the parsed value becomes [founder] as it is,
    without a check that it is a profile; the store is not written; the list
    view is shown exactly when that value is truthy.  When the value has no
    truthy company, as for every value that is not an object, each contact
    link names 'our company'. *)
Theorem mount_takes_any_stored_json (store : Storage) (text : jsstring)
        (v : JsValue) :
  saved_profile_text store = Some text ->
  JSON_parse text = Some v ->
  exists w : World,
    mount_effect (initial_world store) = (Normal tt, w) /\
    founder w = v /\ localStorage w = store /\ students w = mock /\
    (view w = CandidateListView <-> ToBoolean v = true) /\
    (ToBoolean (Json.get v (js "company")) = false ->
     forall student,
       contact_href student (founder w)
       = Some
           (js "mailto:" ++ Student.contactEmail student
            ++ js "?subject=Collaboration%20with%20" ++ Student.name student
            ++ js "&body=Hi%20" ++ Student.name student
            ++ js ",%0D%0A%0D%0AI%20would%20love%20to%20connect%20regarding%20opportunities%20at%20our company.")) /\
    ((forall props, v <> JObject props) ->
     ToBoolean (Json.get v (js "company")) = false).
Proof.
  intros Es Ep. eexists.
  split; [apply (mount_with_parsed_profile _ Es Ep)|].
  cbn [founder localStorage students].
  split; [reflexivity|]. split; [reflexivity|]. split; [reflexivity|].
  split.
  { unfold view. cbn [founder].
    destruct (ToBoolean v); simpl; split; congruence. }
  split.
  { intros Hc student. unfold contact_href, company_or_default. cbv zeta.
    rewrite Hc. reflexivity. }
  intros Hno. destruct v; try reflexivity. now destruct (Hno props).
Qed.

(** X7.  Submit, reload, contact.  After an accepted submission the company
    a contact link names is the trimmed company of the form.  A later mount
    over the store the submission left shows the candidate list with the
    three listed candidates, and builds for every candidate the same contact
    link as before the reload. *)
Theorem reload_keeps_the_contact_links (w : World) (st' : Storage) :
  JsString.truthy (canSubmit (form w)) = true ->
  Storage.setItem (localStorage w) PROFILE_KEY
    (JSON_stringify (Founder.props (profile_of (form w)))) = Some st' ->
  exists w' w'' : World,
    handleSignup w = (Normal tt, w') /\
    company_or_default (founder w')
    = Some (trim (FormState.company (form w))) /\
    mount_effect (initial_world (localStorage w')) = (Normal tt, w'') /\
    view w'' = CandidateListView /\
    candidates_shown w'' = mock /\
    forall student,
      contact_href student (founder w'') = contact_href student (founder w') /\
      contact_href student (founder w')
      = Some (contact_link student (trim (FormState.company (form w)))).
Proof.
  intros Hcan Hset.
  pose proof Hcan as H. apply canSubmit_true_iff in H as (_ & Hc & _).
  pose proof (getItem_setItem _ _ _ Hset) as Hget.
  assert (Es : saved_profile_text st'
               = Some (JSON_stringify (Founder.props (profile_of (form w))))).
  { unfold saved_profile_text. rewrite Hget. reflexivity. }
  eexists _, _.
  split; [apply (handleSignup_accepted w Hcan Hset)|].
  cbn [founder localStorage].
  split; [now apply company_of_profile|].
  split; [apply (mount_with_parsed_profile _ Es
                   (JSON_parse_stringify_profile _))|].
  split; [reflexivity|]. split; [reflexivity|].
  intros student. cbn [founder]. split.
  - unfold contact_href, company_or_default.
    now rewrite stored_record_get.
  - unfold contact_href. now rewrite company_of_profile.
Qed.

(** *** When the mount effect throws, and how often a profile is set *)

(** X10.  The mount effect throws exactly when the stored profile value is
    present, is not the empty string and is not well-formed JSON, and then
    with the SyntaxError of [JSON.parse]; an absent or empty value is not
    parsed at all, and the effect completes although the empty string is not
    JSON either. *)
Theorem mount_throws_iff_malformed (store : Storage) :
  (fst (mount_effect (initial_world store)) = Throw SyntaxError_thrown <->
   exists text, Storage.getItem store PROFILE_KEY = Some text /\
                text <> [] /\ JSON_parse text = None) /\
  (fst (mount_effect (initial_world store)) = Normal tt \/
   fst (mount_effect (initial_world store)) = Throw SyntaxError_thrown) /\
  (Storage.getItem store PROFILE_KEY = Some [] ->
   JSON_parse [] = None /\
   exists w : World,
     mount_effect (initial_world store) = (Normal tt, w) /\
     founder w = JNull /\ students w = mock /\
     log w = [StorageGetItem PROFILE_KEY; SetStudents mock]).
Proof.
  assert (Hcases :
            saved_profile_text store = None \/
            exists text, saved_profile_text store = Some text).
  { destruct (saved_profile_text store); eauto. }
  assert (Hsaved : forall text,
             saved_profile_text store = Some text <->
             Storage.getItem store PROFILE_KEY = Some text /\ text <> []).
  { intros text. unfold saved_profile_text.
    destruct (Storage.getItem store PROFILE_KEY) as [[|c t]|]; simpl;
      split; try (intros [H1 H2]); try intros H; try discriminate;
      try congruence.
    - injection H as <-. split; [reflexivity|discriminate]. }
  split; [|split].
  - split.
    + intros Hthrow. destruct Hcases as [En | (text & Es)].
      * rewrite (mount_without_profile _ En) in Hthrow. discriminate.
      * destruct (JSON_parse text) as [v|] eqn:Ep.
        -- rewrite (mount_with_parsed_profile _ Es Ep) in Hthrow.
           discriminate.
        -- exists text. apply Hsaved in Es as [Hg Hne]. auto.
    + intros (text & Hg & Hne & Ep).
      assert (Es : saved_profile_text store = Some text)
        by (apply Hsaved; auto).
      now rewrite (mount_with_malformed_profile _ Es Ep).
  - destruct Hcases as [En | (text & Es)].
    + rewrite (mount_without_profile _ En). auto.
    + destruct (JSON_parse text) as [v|] eqn:Ep.
      * rewrite (mount_with_parsed_profile _ Es Ep). auto.
      * rewrite (mount_with_malformed_profile _ Es Ep). auto.
  - intros Hg. split; [reflexivity|].
    assert (En : saved_profile_text store = None)
      by (unfold saved_profile_text; now rewrite Hg).
    eexists. split; [apply (mount_without_profile _ En)|].
    repeat split.
Qed.

Lemma list_view_stays (evs : list Event) :
  forall w w' : World,
    view w = CandidateListView -> run evs w = Some w' ->
    view w' = CandidateListView.
Proof.
  induction evs as [|ev evs IH]; intros w w' Hv Hrun; simpl in Hrun.
  - now injection Hrun as <-.
  - destruct (enabled w ev) eqn:Hen; [|discriminate].
    destruct (handle ev w) as [r w1] eqn:Hh. simpl in Hrun.
    destruct (@list_view_event ev w w1 r Hv Hen Hh) as (Ef & _).
    apply (IH w1 w'); [|exact Hrun].
    rewrite (@view_of_founder w w1 Ef). exact Hv.
Qed.

Lemma form_view_event (ev : Event) (w w' : World) (r : Completion unit) :
  view w = FormView ->
  enabled w ev = true ->
  handle ev w = (r, w') ->
  exists added,
    log w' = log w ++ added /\
    ((view w' = FormView /\ filter is_set_founder added = []) \/
     (view w' = CandidateListView /\
      List.length (filter is_set_founder added) = 1%nat)).
Proof.
  intros Hv Hen H.
  destruct (@enabled_form_view w ev Hen Hv) as [-> | ([fld v] & Hc)].
  - simpl in H.
    destruct (JsString.truthy (canSubmit (form w))) eqn:Ec.
    + destruct (Storage.setItem (localStorage w) PROFILE_KEY
                  (JSON_stringify (Founder.props (profile_of (form w)))))
        as [st'|] eqn:Es.
      * rewrite (handleSignup_accepted w Ec Es) in H.
        injection H as _ <-. simpl. eexists; split; [reflexivity|].
        right. split; reflexivity.
      * rewrite (handleSignup_rejected w Ec Es) in H.
        injection H as _ <-. simpl. eexists; split; [reflexivity|].
        left. split; [exact Hv|reflexivity].
    + rewrite (handleSignup_blocked w Ec) in H.
      injection H as _ <-. simpl. eexists; split; [reflexivity|].
      left. split; [exact Hv|reflexivity].
  - destruct ev; try discriminate; simpl in H; injection H as _ <-;
      simpl; eexists; (split; [reflexivity|]); left;
      (split; [exact Hv|reflexivity]).
Qed.

(** X11.  A profile is set at most once after the mount effect.  Over any
    sequence of events the handlers call [setFounder] at most once, and not
    at all once the candidate list is shown: a submission that was stored
    ends the form view, and nothing in the list view sets the profile. *)
Theorem profile_is_set_at_most_once (evs : list Event) :
  forall w w' : World,
    run evs w = Some w' ->
    exists added,
      log w' = log w ++ added /\
      (List.length (filter is_set_founder added) <= 1)%nat /\
      (view w = CandidateListView -> filter is_set_founder added = []) /\
      (view w' = FormView -> filter is_set_founder added = []).
Proof.
  induction evs as [|ev evs IH]; intros w w' Hrun; simpl in Hrun.
  - injection Hrun as <-. exists []. rewrite app_nil_r. simpl. auto.
  - destruct (enabled w ev) eqn:Hen; [|discriminate].
    destruct (handle ev w) as [r w1] eqn:Hh. simpl in Hrun.
    destruct (IH w1 w' Hrun) as (added1 & El1 & Hc1 & Hl1 & Hf1).
    destruct (view w) eqn:Hv.
    + destruct (@form_view_event ev w w1 r Hv Hen Hh)
        as (added0 & El0 & [[Hv1 H0] | [Hv1 H0]]);
        exists (added0 ++ added1);
        rewrite El1, El0, <- app_assoc, filter_app, length_app.
      * rewrite H0. simpl. repeat split; auto; discriminate.
      * rewrite (Hl1 Hv1), H0, app_nil_r. simpl.
        split; [reflexivity|]. split; [lia|]. split; [discriminate|].
        intros Hv'.
        pose proof (@list_view_stays evs w1 w' Hv1 Hrun).
        congruence.
    + destruct (@list_view_event ev w w1 r Hv Hen Hh)
        as (Ef & _ & _ & _ & _ & Hcase).
      assert (Hv1 : view w1 = CandidateListView)
        by (rewrite (@view_of_founder w w1 Ef); exact Hv).
      destruct Hcase as [(_ & _ & e & El0 & He) | (_ & _ & _ & El0)].
      * exists (e :: added1).
        rewrite El1, El0, <- app_assoc. simpl.
        assert (E : is_set_founder e = false)
          by (destruct e; auto; discriminate).
        rewrite E, (Hl1 Hv1). simpl. auto.
      * exists added1. rewrite El1, El0, (Hl1 Hv1). simpl. auto.
Qed.

(** *** Contact links as a mail client reads them *)

Lemma split_at_app (sep : code_unit) (a b : jsstring) :
  forallb (fun c => negb (c =? sep)%N) a = true ->
  Mailto.split_at sep (a ++ sep :: b) = (a, Some b).
Proof.
  induction a as [|c a IH]; simpl; intros H.
  - now rewrite N.eqb_refl.
  - apply andb_true_iff in H as [Hc Ha]. apply negb_true_iff in Hc.
    now rewrite Hc, (IH Ha).
Qed.

Lemma split_all_app (sep : code_unit) (a b : jsstring) :
  forallb (fun c => negb (c =? sep)%N) a = true ->
  Mailto.split_all sep (a ++ sep :: b) = a :: Mailto.split_all sep b.
Proof.
  induction a as [|c a IH]; simpl; intros H.
  - now rewrite N.eqb_refl.
  - apply andb_true_iff in H as [Hc Ha]. apply negb_true_iff in Hc.
    now rewrite Hc, (IH Ha).
Qed.

Lemma split_all_none (sep : code_unit) (s : jsstring) :
  forallb (fun c => negb (c =? sep)%N) s = true ->
  Mailto.split_all sep s = [s].
Proof.
  induction s as [|c s IH]; simpl; intros H; [reflexivity|].
  apply andb_true_iff in H as [Hc Hs]. apply negb_true_iff in Hc.
  now rewrite Hc, (IH Hs).
Qed.

Lemma plain_without (sep : code_unit) (s : jsstring) :
  sep = 38%N \/ sep = 63%N ->
  plain_for_mailto s = true ->
  forallb (fun c => negb (c =? sep)%N) s = true.
Proof.
  intros Hsep. unfold plain_for_mailto.
  induction s as [|c s IH]; simpl; [reflexivity|]. intros H.
  apply andb_true_iff in H as [Hc Hs]. rewrite (IH Hs), andb_true_r.
  apply negb_true_iff in Hc. apply orb_false_iff in Hc as [Hc _].
  apply orb_false_iff in Hc as [H38 H63].
  destruct Hsep as [-> | ->]; now apply negb_true_iff.
Qed.

(** The parts of a contact link whose interpolated values hold none of the
    characters that end a part. *)
Lemma contact_link_parts (student : StudentCandidate) (company : jsstring) :
  plain_for_mailto (Student.contactEmail student) = true ->
  plain_for_mailto (Student.name student) = true ->
  plain_for_mailto company = true ->
  Mailto.recipient (contact_link student company)
  = Some (Student.contactEmail student) /\
  Mailto.headers (contact_link student company)
  = [ (js "subject",
       js "Collaboration%20with%20" ++ Student.name student);
      (js "body",
       js "Hi%20" ++ Student.name student
       ++ js ",%0D%0A%0D%0AI%20would%20love%20to%20connect%20regarding%20opportunities%20at%20"
       ++ company ++ js ".") ].
Proof.
  intros He Hn Hc.
  pose proof (@plain_without 63%N _ (or_intror eq_refl) He) as He63.
  pose proof (@plain_without 38%N _ (or_introl eq_refl) Hn) as Hn38.
  pose proof (@plain_without 38%N _ (or_introl eq_refl) Hc) as Hc38.
  unfold Mailto.recipient, Mailto.headers, contact_link.
  change (starts_with Mailto.scheme
            (js "mailto:" ++ Student.contactEmail student
             ++ js "?subject=Collaboration%20with%20" ++ Student.name student
             ++ js "&body=Hi%20" ++ Student.name student
             ++ js ",%0D%0A%0D%0AI%20would%20love%20to%20connect%20regarding%20opportunities%20at%20"
             ++ company ++ js "."))
    with true.
  cbv iota.
  change (skipn (List.length Mailto.scheme)
            (js "mailto:" ++ Student.contactEmail student
             ++ js "?subject=Collaboration%20with%20" ++ Student.name student
             ++ js "&body=Hi%20" ++ Student.name student
             ++ js ",%0D%0A%0D%0AI%20would%20love%20to%20connect%20regarding%20opportunities%20at%20"
             ++ company ++ js "."))
    with (Student.contactEmail student
          ++ 63%N :: (js "subject=Collaboration%20with%20"
                      ++ Student.name student)
          ++ 38%N :: js "body=Hi%20" ++ Student.name student
          ++ js ",%0D%0A%0D%0AI%20would%20love%20to%20connect%20regarding%20opportunities%20at%20"
          ++ company ++ js ".").
  rewrite split_at_app by exact He63. cbn [fst snd].
  split; [reflexivity|].
  rewrite split_all_app
    by (rewrite forallb_app; apply andb_true_iff; split;
        [reflexivity | exact Hn38]).
  rewrite split_all_none
    by (rewrite !forallb_app; repeat (apply andb_true_iff; split);
        (reflexivity || exact Hn38 || exact Hc38)).
  cbn [map].
  change (js "subject=Collaboration%20with%20" ++ Student.name student)
    with (js "subject" ++ 61%N :: js "Collaboration%20with%20"
          ++ Student.name student).
  change (js "body=Hi%20" ++ Student.name student
          ++ js ",%0D%0A%0D%0AI%20would%20love%20to%20connect%20regarding%20opportunities%20at%20"
          ++ company ++ js ".")
    with (js "body" ++ 61%N :: js "Hi%20" ++ Student.name student
          ++ js ",%0D%0A%0D%0AI%20would%20love%20to%20connect%20regarding%20opportunities%20at%20"
          ++ company ++ js ".").
  rewrite !split_at_app by reflexivity. reflexivity.
Qed.

(** X12.  Contact, on every founder value.  When the company of the founder
    prints, Contact navigates to the link the template builds with the text
    of the company: 'our company' for a missing or falsy company, the string
    itself for a non-empty string.  When it does not print, as for an object
    with an own property [toString], the template literal throws a TypeError
    and nothing is navigated to.  When the candidate's email and name and
    the company text hold no ampersand, question mark or number sign, a mail
    client reads from the link the email as recipient, a subject that ends
    with the name and a body that holds the name and the company. *)
Theorem contact_navigates_or_throws (student : StudentCandidate) (w : World) :
  (company_or_default (founder w) = None ->
   handleContact student w = (Throw TypeError_thrown, w)) /\
  (ToBoolean (Json.get (founder w) (js "company")) = false ->
   company_or_default (founder w) = Some (js "our company")) /\
  (forall c, Json.get (founder w) (js "company") = JString c -> c <> [] ->
             company_or_default (founder w) = Some c) /\
  (forall props,
     Json.get (founder w) (js "company") = JObject props ->
     company_or_default (founder w)
     = match Json.lookup (js "toString") props with
       | Some _ => None
       | None => Some (js "[object Object]")
       end) /\
  forall company,
    company_or_default (founder w) = Some company ->
    let href := contact_link student company in
    let subject := js "Collaboration%20with%20" ++ Student.name student in
    let body :=
      js "Hi%20" ++ Student.name student
      ++ js ",%0D%0A%0D%0AI%20would%20love%20to%20connect%20regarding%20opportunities%20at%20"
      ++ company ++ js "." in
    contact_href student (founder w) = Some href /\
    handleContact student w = (Normal tt, emit (Navigate href) w) /\
    (plain_for_mailto (Student.contactEmail student) = true ->
     plain_for_mailto (Student.name student) = true ->
     plain_for_mailto company = true ->
     Mailto.recipient href = Some (Student.contactEmail student) /\
     Mailto.header (js "subject") href = Some subject /\
     Mailto.header (js "body") href = Some body /\
     substring_of (Student.name student) subject /\
     substring_of (Student.name student) body /\
     substring_of company body).
Proof.
  split.
  { intros Hnone.
    destruct (handleContact_cases student w) as [(href & Eh & _) | (_ & Hc)];
      [|exact Hc].
    unfold contact_href in Eh. rewrite Hnone in Eh. discriminate. }
  split.
  { intros H. unfold company_or_default. cbv zeta. now rewrite H. }
  split.
  { intros c H Hc. unfold company_or_default. cbv zeta. rewrite H. simpl.
    destruct c; [congruence|reflexivity]. }
  split.
  { intros props H. unfold company_or_default. cbv zeta. rewrite H.
    reflexivity. }
  intros company Hsome. cbv zeta.
  assert (Eh : contact_href student (founder w)
               = Some (contact_link student company))
    by (unfold contact_href; now rewrite Hsome).
  split; [exact Eh|]. split.
  { unfold handleContact, bind, read. now rewrite Eh. }
  intros He Hn Hc.
  destruct (@contact_link_parts student company He Hn Hc) as [Hr Hh].
  split; [exact Hr|]. unfold Mailto.header. rewrite Hh.
  split; [reflexivity|]. split; [reflexivity|].
  split; [exists (js "Collaboration%20with%20"), []; now rewrite app_nil_r|].
  split; [exists (js "Hi%20"); eexists; reflexivity|].
  exists (js "Hi%20" ++ Student.name student
          ++ js ",%0D%0A%0D%0AI%20would%20love%20to%20connect%20regarding%20opportunities%20at%20"),
         (js ".").
  rewrite <- !app_assoc. reflexivity.
Qed.

(** *** The two views *)

Lemma view_cases (w : World) :
  (view w = CandidateListView <-> ToBoolean (founder w) = true) /\
  (view w = FormView <-> ToBoolean (founder w) = false).
Proof.
  unfold view. destruct (ToBoolean (founder w)); simpl;
    repeat split; congruence.
Qed.

(** An event in the form view: an accepted submission puts the profile in,
    stores it and shows the list; every other event leaves the profile and
    the form view as they are. *)
Lemma form_view_step (ev : Event) (w w' : World) (r : Completion unit) :
  view w = FormView ->
  enabled w ev = true ->
  handle ev w = (r, w') ->
  (accepted_submission ev w /\ r = Normal tt /\
   founder w' = Founder.value (profile_of (form w)) /\
   Storage.getItem (localStorage w') PROFILE_KEY
   = Some (JSON_stringify (Founder.props (profile_of (form w)))) /\
   view w' = CandidateListView) \/
  (~ accepted_submission ev w /\ founder w' = founder w /\
   view w' = FormView).
Proof.
  intros Hv Hen H.
  destruct (@enabled_form_view w ev Hen Hv) as [-> | ([fld v] & Hc)].
  - simpl in H.
    destruct (JsString.truthy (canSubmit (form w))) eqn:Ec.
    + destruct (Storage.setItem (localStorage w) PROFILE_KEY
                  (JSON_stringify (Founder.props (profile_of (form w)))))
        as [st'|] eqn:Es.
      * rewrite (handleSignup_accepted w Ec Es) in H.
        injection H as <- <-. left.
        split; [split; [reflexivity|];
                split; [exact Ec | rewrite Es; discriminate]|].
        simpl. repeat split. apply (getItem_setItem _ _ _ Es).
      * rewrite (handleSignup_rejected w Ec Es) in H.
        injection H as _ <-. right. simpl.
        split; [intros (_ & _ & Hn); now apply Hn|]. auto.
    + rewrite (handleSignup_blocked w Ec) in H.
      injection H as _ <-. right. simpl.
      split; [intros (_ & Hn & _); congruence|]. auto.
  - right.
    destruct (@change_event ev fld v w w' r Hc H) as (Ef & _).
    split; [intros (-> & _); discriminate|].
    split; [exact Ef|]. now rewrite (@view_of_founder w w' Ef).
Qed.

Lemma run_cons (ev : Event) (evs : list Event) (w w' : World) :
  run (ev :: evs) w = Some w' <->
  enabled w ev = true /\ run evs (snd (handle ev w)) = Some w'.
Proof.
  simpl. destruct (enabled w ev); split; try tauto; try discriminate.
  intros [H _]. discriminate.
Qed.

(** After a run the list is shown exactly when it was shown before the run
    or a submission was accepted during it. *)
Lemma run_view (evs : list Event) :
  forall w0 w : World,
    run evs w0 = Some w ->
    (view w = CandidateListView <->
     view w0 = CandidateListView \/ submission_accepted_in evs w0).
Proof.
  induction evs as [|ev evs IH]; intros w0 w Hrun.
  - simpl in Hrun. injection Hrun as <-. split; [auto|].
    intros [H | (before & after & w1 & E & _)]; [exact H|].
    destruct before; discriminate.
  - apply run_cons in Hrun as [Hen Hrun].
    destruct (handle ev w0) as [r w1] eqn:Hh. simpl in Hrun.
    specialize (IH w1 w Hrun). rewrite IH. clear IH.
    destruct (view w0) eqn:Hv0.
    + destruct (@form_view_step ev w0 w1 r Hv0 Hen Hh)
        as [(Hacc & _ & _ & _ & Hv1) | (Hnot & _ & Hv1)].
      * split; intros _; [|now left]. right.
        exists [], evs, w0. destruct Hacc as (-> & Hacc).
        repeat split; try reflexivity; apply Hacc.
      * split.
        -- intros [H | (before & after & wx & E & Hr & Hacc)];
             [congruence|].
           right. exists (ev :: before), after, wx. rewrite E.
           split; [reflexivity|]. split; [|exact Hacc].
           apply run_cons. rewrite Hh. auto.
        -- intros [H | (before & after & wx & E & Hr & Hacc)];
             [discriminate|].
           destruct before as [|e before]; simpl in E; injection E as -> ->.
           ++ simpl in Hr. injection Hr as <-. contradiction.
           ++ apply run_cons in Hr as [_ Hr]. rewrite Hh in Hr.
              right. exists before, after, wx. auto.
    + destruct (@list_view_event ev w0 w1 r Hv0 Hen Hh) as (Ef & _).
      assert (Hv1 : view w1 = CandidateListView)
        by (rewrite (@view_of_founder w0 w1 Ef); reflexivity || exact Hv0).
      split; auto.
Qed.

(** C3.  The first render shows the form.  The mount effect shows the form
    when nothing is stored, loads a stored value that parses, and then shows
    the candidate list exactly when that value is truthy.  In every state
    reached afterwards the list is shown exactly when [founder] holds a
    truthy value, which the mount effect loaded or a submission created.  An
    event in the list view leaves the list view and the profile as they are.
    An event in the form view leads to the list view exactly when it is a
    submission that passes the guard and that the store accepts, and it then
    puts the new profile in and stores it; any other event leaves the form
    view and the profile as they are.  So after any run of events from the
    mounted component the list is shown exactly when the mount effect showed
    it or a submission was accepted along the way. *)
Theorem view_follows_founder (store : Storage) :
  view (initial_world store) = FormView /\
  (saved_profile_text store = None ->
   exists w, mount_effect (initial_world store) = (Normal tt, w) /\
             founder w = JNull /\ view w = FormView /\
             candidates_shown w = []) /\
  (forall text v,
     saved_profile_text store = Some text ->
     JSON_parse text = Some v ->
     exists w, mount_effect (initial_world store) = (Normal tt, w) /\
               founder w = v /\
               (ToBoolean v = true ->
                view w = CandidateListView /\ candidates_shown w = mock) /\
               (ToBoolean v = false -> view w = FormView)) /\
  (forall w : World,
     reachable store w ->
     (view w = CandidateListView <-> ToBoolean (founder w) = true) /\
     (view w = FormView <-> ToBoolean (founder w) = false) /\
     (founder w = JNull \/
      (exists text, saved_profile_text store = Some text /\
                    JSON_parse text = Some (founder w)) \/
      (exists f : Form, founder w = Founder.value (profile_of f))) /\
     forall (ev : Event) (r : Completion unit) (w' : World),
       enabled w ev = true ->
       handle ev w = (r, w') ->
       (view w = CandidateListView ->
        view w' = CandidateListView /\ founder w' = founder w) /\
       (view w = FormView ->
        (view w' = CandidateListView <-> accepted_submission ev w) /\
        (view w' = CandidateListView ->
         r = Normal tt /\
         founder w' = Founder.value (profile_of (form w)) /\
         Storage.getItem (localStorage w') PROFILE_KEY
         = Some (JSON_stringify (Founder.props (profile_of (form w))))) /\
        (view w' = FormView -> founder w' = founder w))) /\
  (forall (w0 : World) (evs : list Event) (w : World),
     mount_effect (initial_world store) = (Normal tt, w0) ->
     run evs w0 = Some w ->
     (view w = CandidateListView <->
      view w0 = CandidateListView \/ submission_accepted_in evs w0)).
Proof.
  split; [reflexivity|]. split.
  { intros Es. eexists. split; [apply (mount_without_profile _ Es)|].
    now simpl. }
  split.
  { intros text v Es Ep. eexists.
    split; [apply (mount_with_parsed_profile _ Es Ep)|].
    split; [reflexivity|]. unfold candidates_shown, view. cbn [founder].
    split; intros ->; simpl; auto. }
  split.
  - intros w Hw. destruct (view_cases w) as [V1 V2].
    split; [exact V1|]. split; [exact V2|].
    split; [exact (reachable_founder Hw)|].
    intros ev r w' Hen Hh. split.
    + intros Hl.
      destruct (@list_view_event ev w w' r Hl Hen Hh) as (Ef & _).
      split; [|exact Ef]. now rewrite (@view_of_founder w w' Ef).
    + intros Hform.
      destruct (@form_view_step ev w w' r Hform Hen Hh)
        as [(Hacc & Hr & Hf & Hg & Hv) | (Hnot & Hf & Hv)].
      * split; [split; auto|]. split; [auto|]. intros Hv'. congruence.
      * split; [split; [intros Hv'; congruence | intros Ha; contradiction]|].
        split; [intros Hv'; congruence | auto].
  - intros w0 evs w _ Hrun. now apply run_view.
Qed.

Lemma reachable_next (store : Storage) (w : World) (ev : Event) :
  reachable store w -> enabled w ev = true ->
  reachable store (snd (handle ev w)).
Proof.
  intros R E. eapply reach_event; [exact R | exact E |].
  apply surjective_pairing.
Qed.

End FounderPortal.


(** ** The claims on sample inputs *)

Lemma filled_world_reachable :
  reachable Sample.number_is_zero Sample.number_to_string None
            Storage.empty Sample.filled_world.
Proof.
  pose proof (@reach_mount Sample.number_is_zero Sample.number_to_string
                None Storage.empty _ eq_refl) as R0.
  pose proof (reach_event (ChangeName (js "Rohan")) R0 eq_refl eq_refl)
    as R1.
  pose proof (reach_event (ChangeCompany (js "Acme")) R1 eq_refl eq_refl)
    as R2.
  exact (reach_event (ChangeEmail (js "r@acme.com")) R2 eq_refl eq_refl).
Defined.

Lemma submission_enabled_iff_required_fields_witness :
  reachable Sample.number_is_zero Sample.number_to_string None
            Storage.empty Sample.filled_world /\
  submit_disabled Sample.filled_world = false.
Proof.
  split; [exact filled_world_reachable|].
  apply (submission_enabled_iff_required_fields filled_world_reachable).
  repeat split; discriminate.
Defined.

Lemma signup_persists_trimmed_profile_witness :
  exists w' : World,
    handleSignup None Sample.filled_world = (Normal tt, w') /\
    view Sample.number_is_zero w' = CandidateListView.
Proof.
  destruct (@signup_persists_trimmed_profile
              Sample.number_is_zero Sample.number_to_string None
              Sample.filled_world
              {| Storage.items :=
                   [(PROFILE_KEY,
                     JSON_stringify
                       (Founder.props (profile_of None Sample.rohan)))];
                 Storage.quota := None |})
    as (w' & text & record & H & _ & _ & _ & _ & _ & _ & _ & _ & _ & _ & Hv);
    try discriminate; [reflexivity|].
  exists w'. split; assumption.
Defined.

(** C2 fails as stated.  With a user whose identifier is the empty string the
    stored record does not carry that identifier but 'local-founder'; and
    over a store with no room left nothing is stored, the exception leaves the
    handler and the form view stays. *)
Lemma signup_id_and_write_counterexample :
  (exists (w' : World) (text : jsstring) (record : JsValue),
     handleSignup Sample.user_with_empty_id Sample.filled_world
     = (Normal tt, w') /\
     Storage.getItem (localStorage w') PROFILE_KEY = Some text /\
     JSON_parse text = Some record /\
     Json.get record (js "id") = JString (js "local-founder") /\
     Json.get record (js "id") <> JString []) /\
  (exists w' : World,
     handleSignup None Sample.filled_world_full_store
     = (Throw QuotaExceededError, w') /\
     Storage.getItem (localStorage w') PROFILE_KEY = None /\
     view Sample.number_is_zero w' = FormView).
Proof.
  split.
  - eexists _, _, _. split; [reflexivity|]. split; [reflexivity|].
    split; [vm_compute; reflexivity|]. split; [reflexivity|discriminate].
  - eexists. split; [reflexivity|]. split; reflexivity.
Qed.

Lemma stored_profile_reads_back_witness :
  exists (w' : World) (text : jsstring) (record : JsValue),
    Storage.getItem (localStorage w') PROFILE_KEY = Some text /\
    JSON_parse text = Some record /\
    Json.get record (js "company") = Json.get (founder w') (js "company").
Proof.
  destruct (@stored_profile_reads_back
              Sample.number_is_zero None Sample.filled_world
              {| Storage.items :=
                   [(PROFILE_KEY,
                     JSON_stringify
                       (Founder.props (profile_of None Sample.rohan)))];
                 Storage.quota := None |})
    as (w' & text & record & _ & Hget & Hparse & Hk & _);
    [reflexivity|reflexivity|].
  exists w', text, record. repeat split; [assumption|assumption|apply Hk].
Defined.

Lemma view_follows_founder_witness :
  (exists w : World,
     mount_effect (initial_world Storage.empty) = (Normal tt, w) /\
     view Sample.number_is_zero w = FormView) /\
  (exists w : World,
     mount_effect (initial_world Sample.acme_store) = (Normal tt, w) /\
     founder w = Sample.acme_record /\
     view Sample.number_is_zero w = CandidateListView) /\
  view Sample.number_is_zero
       (snd (handle Sample.number_is_zero Sample.number_to_string None
                    SubmitForm Sample.filled_world))
  = CandidateListView.
Proof.
  split; [|split].
  - destruct (@view_follows_founder Sample.number_is_zero
                Sample.number_to_string None Storage.empty)
      as (_ & H & _).
    destruct (H eq_refl) as (w & Hm & _ & Hv & _).
    exists w. split; assumption.
  - destruct (@view_follows_founder Sample.number_is_zero
                Sample.number_to_string None Sample.acme_store)
      as (_ & _ & H & _).
    destruct (H (JSON_stringify (Founder.props Sample.acme))
                Sample.acme_record)
      as (w & Hm & Hf & Hl & _);
      [reflexivity | vm_compute; reflexivity |].
    exists w. split; [exact Hm|]. split; [exact Hf|].
    apply Hl. reflexivity.
  - destruct (@view_follows_founder Sample.number_is_zero
                Sample.number_to_string None Storage.empty)
      as (_ & _ & _ & H & _).
    destruct (H Sample.filled_world filled_world_reachable)
      as (_ & _ & _ & Hstep).
    destruct (Hstep SubmitForm
                (fst (handle Sample.number_is_zero Sample.number_to_string
                        None SubmitForm Sample.filled_world))
                (snd (handle Sample.number_is_zero Sample.number_to_string
                        None SubmitForm Sample.filled_world)))
      as (_ & Hform); [reflexivity | apply surjective_pairing |].
    destruct (Hform eq_refl) as ((_ & Hacc) & _).
    apply Hacc. split; [reflexivity|]. split; [reflexivity|].
    vm_compute. discriminate.
Defined.

Lemma candidates_are_the_fixed_three_witness :
  (forall text, saved_profile_text Storage.empty = Some text ->
                JSON_parse text <> None) /\
  map Student.id (students Sample.filled_world)
  = [js "u1"; js "u2"; js "u3"].
Proof.
  assert (H : forall text, saved_profile_text Storage.empty = Some text ->
                           JSON_parse text <> None) by discriminate.
  split; [exact H|].
  destruct (@candidates_are_the_fixed_three Sample.number_is_zero
              Sample.number_to_string None Storage.empty H) as (_ & Hall).
  apply (Hall Sample.filled_world filled_world_reachable).
Defined.

(** C4 fails as stated.  Over a store whose profile entry is not JSON the
    mount effect is left by the SyntaxError before it sets the candidate
    list, which stays empty. *)
Lemma candidates_counterexample :
  Storage.getItem Sample.malformed_store PROFILE_KEY = Some (js "{") /\
  JSON_parse (js "{") = None /\
  fst (mount_effect (initial_world Sample.malformed_store))
  = Throw SyntaxError_thrown /\
  students (snd (mount_effect (initial_world Sample.malformed_store))) = [] /\
  students (snd (mount_effect (initial_world Sample.malformed_store)))
  <> mock.
Proof. repeat split; try reflexivity. discriminate. Qed.

Lemma malformed_profile_aborts_mount_witness :
  exists w : World,
    mount_effect (initial_world Sample.malformed_store)
    = (Throw SyntaxError_thrown, w) /\
    students w = [].
Proof.
  destruct (@malformed_profile_aborts_mount Sample.number_is_zero
              Sample.malformed_store (js "{"))
    as (w & Hm & _ & Hs & _);
    [reflexivity|discriminate|reflexivity|].
  exists w. split; assumption.
Defined.

(** C9 fails as stated.  Over a store whose profile entry is not JSON the
    failure is not swallowed: the mount effect completes with the exception,
    and it leaves a world that differs from the one it leaves over a store
    with no profile, where the candidate list has been set. *)
Lemma malformed_profile_counterexample :
  JSON_parse (js "{") = None /\
  fst (mount_effect (initial_world Sample.malformed_store))
  = Throw SyntaxError_thrown /\
  fst (mount_effect (initial_world Storage.empty)) = Normal tt /\
  students (snd (mount_effect (initial_world Sample.malformed_store))) = [] /\
  students (snd (mount_effect (initial_world Storage.empty))) = mock /\
  students (snd (mount_effect (initial_world Sample.malformed_store)))
  <> students (snd (mount_effect (initial_world Storage.empty))).
Proof. repeat split; try reflexivity. discriminate. Qed.

(** C6, at a failing input.  For the listed candidate Zoya Khan and a founder
    of the company Acme the link holds the space of the candidate's name as
    it is: neither the subject nor the body a mail client reads from the link
    is URL-encoded. *)
Theorem contact_link_is_not_url_encoded :
  let href :=
    js "mailto:zoya@example.com?subject=Collaboration%20with%20Zoya Khan&body=Hi%20Zoya Khan,%0D%0A%0D%0AI%20would%20love%20to%20connect%20regarding%20opportunities%20at%20Acme." in
  In Sample.zoya mock /\
  contact_href Sample.number_is_zero Sample.number_to_string
               Sample.zoya (founder Sample.acme_world) = Some href /\
  handleContact Sample.number_is_zero Sample.number_to_string Sample.zoya
                Sample.acme_world
  = (Normal tt, emit (Navigate href) Sample.acme_world) /\
  Mailto.header (js "subject") href
  = Some (js "Collaboration%20with%20Zoya Khan") /\
  Mailto.percent_encoded (js "Collaboration%20with%20Zoya Khan") = false /\
  Mailto.header (js "body") href
  = Some (js "Hi%20Zoya Khan,%0D%0A%0D%0AI%20would%20love%20to%20connect%20regarding%20opportunities%20at%20Acme.") /\
  Mailto.percent_encoded
    (js "Hi%20Zoya Khan,%0D%0A%0D%0AI%20would%20love%20to%20connect%20regarding%20opportunities%20at%20Acme.")
  = false /\
  Mailto.percent_encoded (js "Collaboration%20with%20") = true.
Proof.
  cbv zeta. split; [right; left; reflexivity|].
  repeat split; reflexivity.
Qed.

Lemma submitting_flag_brackets_the_write_witness :
  exists w' : World,
    handleSignup None Sample.filled_world_full_store
    = (Throw QuotaExceededError, w') /\
    isSubmitting w' = false.
Proof.
  destruct (@submitting_flag_brackets_the_write None
              Sample.filled_world_full_store eq_refl)
    as ((r & w' & between & Hh & _ & Hs & Hr & _) & _).
  exists w'. split; [|exact Hs]. rewrite Hh, Hr. reflexivity.
Defined.

Lemma hire_changes_nothing_witness :
  handle Sample.number_is_zero Sample.number_to_string None (ClickHire 1)
         Sample.acme_world
  = handleHire Sample.zoya Sample.acme_world.
Proof.
  destruct (@hire_changes_nothing Sample.number_is_zero
              Sample.number_to_string None Sample.zoya Sample.acme_world)
    as (_ & H).
  apply H. reflexivity.
Defined.

(** A website without surrounding white space is stored as it is, and one
    with surrounding white space is stored trimmed. *)
Example website_is_stored_trimmed :
  Founder.website
    (profile_of None
       {| FormState.name := js "Rohan"; FormState.company := js "Acme";
          FormState.email := js "r@acme.com";
          FormState.website := js "https://acme.com" |})
  = Some (js "https://acme.com") /\
  Founder.website
    (profile_of None
       {| FormState.name := js "Rohan"; FormState.company := js "Acme";
          FormState.email := js "r@acme.com";
          FormState.website := js "  https://acme.com " |})
  = Some (js "https://acme.com") /\
  Founder.website (profile_of None Sample.rohan) = None.
Proof. repeat split; reflexivity. Qed.

(** ** The further properties on sample inputs *)

Lemma store_touched_at_profile_key_only_witness :
  exists w : World,
    reachable Sample.number_is_zero Sample.number_to_string None
              Sample.shared_store w /\
    Storage.getItem (localStorage w) (js "theme") = Some (js "dark") /\
    Storage.getItem (localStorage w) PROFILE_KEY
    = Some (JSON_stringify (Founder.props (profile_of None Sample.rohan))).
Proof.
  pose proof (@reach_mount Sample.number_is_zero Sample.number_to_string
                None Sample.shared_store _ eq_refl) as R0.
  pose proof (reachable_next (ChangeName (js "Rohan")) R0 eq_refl) as R1.
  assert (R2 := reachable_next (ChangeCompany (js "Acme")) R1 eq_refl).
  assert (R3 := reachable_next (ChangeEmail (js "r@acme.com")) R2 eq_refl).
  assert (R4 := reachable_next SubmitForm R3 eq_refl).
  eexists. split; [exact R4|].
  destruct (store_touched_at_profile_key_only R4) as (Hk & _).
  split; [|vm_compute; reflexivity].
  rewrite Hk; [reflexivity|discriminate].
Defined.

Lemma list_view_is_read_only_witness :
  match run Sample.number_is_zero Sample.number_to_string None
            [ClickContact 1; ClickHire 0] Sample.acme_world with
  | Some w' =>
      founder w' = founder Sample.acme_world /\
      localStorage w' = localStorage Sample.acme_world /\
      List.length (log w') = 2%nat
  | None => False
  end /\
  match run Sample.number_is_zero Sample.number_to_string None
            [ClickContact 1; ClickHire 0] Sample.unprintable_world with
  | Some w' =>
      founder w' = founder Sample.unprintable_world /\
      List.length (log w') = 4%nat
  | None => False
  end.
Proof.
  split.
  - destruct (run Sample.number_is_zero Sample.number_to_string None
                  [ClickContact 1; ClickHire 0] Sample.acme_world)
      as [w'|] eqn:E; [|vm_compute in E; discriminate].
    destruct (@list_view_is_read_only Sample.number_is_zero
                Sample.number_to_string None [ClickContact 1; ClickHire 0]
                Sample.acme_world w' eq_refl E)
      as (Hf & _ & _ & _ & Hs & _ & added & Hl & _ & _ & Hlen & _).
    split; [exact Hf|]. split; [exact Hs|].
    rewrite Hl, length_app, Hlen; [reflexivity|discriminate].
  - destruct (run Sample.number_is_zero Sample.number_to_string None
                  [ClickContact 1; ClickHire 0] Sample.unprintable_world)
      as [w'|] eqn:E; [|vm_compute in E; discriminate].
    destruct (@list_view_is_read_only Sample.number_is_zero
                Sample.number_to_string None [ClickContact 1; ClickHire 0]
                Sample.unprintable_world w' eq_refl E)
      as (Hf & _ & _ & _ & _ & _ & added & Hl & _ & _ & _ & Hlen).
    split; [exact Hf|].
    rewrite Hl, length_app, Hlen; reflexivity.
Defined.

Lemma stored_fields_are_normalised_witness :
  Founder.name (profile_of None Sample.padded) = js "Rohan Gupta" /\
  profile_of None (form_of_profile (profile_of None Sample.padded))
  = profile_of None Sample.padded.
Proof.
  split; [reflexivity|].
  apply (@stored_fields_are_normalised Sample.number_is_zero
           Sample.number_to_string None Sample.padded eq_refl).
Defined.

Lemma trim_fixed_points_witness :
  trim (js "Rohan Gupta") = js "Rohan Gupta" /\
  trim (trim (js "  Rohan Gupta ")) = trim (js "  Rohan Gupta ").
Proof.
  split.
  - destruct (trim_fixed_points (js "Rohan Gupta")) as ((_ & H) & _).
    apply H. reflexivity.
  - destruct (trim_fixed_points (js "  Rohan Gupta ")) as (_ & _ & H).
    exact H.
Defined.

Lemma saving_label_never_shown_witness :
  submit_label Sample.filled_world = js "Save profile".
Proof.
  apply (saving_label_never_shown filled_world_reachable).
Defined.

Lemma mount_takes_any_stored_json_witness :
  exists w : World,
    mount_effect (initial_world Sample.array_store) = (Normal tt, w) /\
    founder w = JArray [] /\
    view Sample.number_is_zero w = CandidateListView.
Proof.
  destruct (@mount_takes_any_stored_json Sample.number_is_zero
              Sample.number_to_string Sample.array_store (js "[]")
              (JArray []) eq_refl eq_refl)
    as (w & Hm & Hf & _ & _ & Hv & _).
  exists w. split; [exact Hm|]. split; [exact Hf|].
  apply Hv. reflexivity.
Defined.

Lemma reload_keeps_the_contact_links_witness :
  exists w' w'' : World,
    handleSignup None Sample.filled_world = (Normal tt, w') /\
    mount_effect (initial_world (localStorage w')) = (Normal tt, w'') /\
    contact_href Sample.number_is_zero Sample.number_to_string Sample.zoya
                 (founder w'')
    = contact_href Sample.number_is_zero Sample.number_to_string Sample.zoya
                   (founder w').
Proof.
  destruct (@reload_keeps_the_contact_links
              Sample.number_is_zero Sample.number_to_string None
              Sample.filled_world
              {| Storage.items :=
                   [(PROFILE_KEY,
                     JSON_stringify
                       (Founder.props (profile_of None Sample.rohan)))];
                 Storage.quota := None |} eq_refl eq_refl)
    as (w' & w'' & Hs & _ & Hm & _ & _ & Hl).
  exists w', w''. split; [exact Hs|]. split; [exact Hm|]. apply Hl.
Defined.

Lemma form_holds_last_typed_values_witness :
  match run Sample.number_is_zero Sample.number_to_string None
            [ChangeName (js "R"); ChangeEmail (js "r@acme.com");
             ChangeName (js "Rohan")]
            (initial_world Storage.empty) with
  | Some w' => FormState.name (form w') = js "Rohan"
  | None => False
  end.
Proof.
  destruct (@form_holds_last_typed_values
              Sample.number_is_zero Sample.number_to_string None
              [ChangeName (js "R"); ChangeEmail (js "r@acme.com");
               ChangeName (js "Rohan")]
              (initial_world Storage.empty) eq_refl)
    as (w' & Hrun & Hfld & _).
  { intros ev [<- | [<- | [<- | []]]]; discriminate. }
  rewrite Hrun. apply (Hfld NameField).
Defined.

Lemma contact_and_hire_need_a_profile_witness :
  exists (w : World) (href : jsstring),
    reachable Sample.number_is_zero Sample.number_to_string None
              Storage.empty w /\
    In (Navigate href) (log w) /\
    exists student v,
      In student mock /\ ToBoolean Sample.number_is_zero v = true /\
      contact_href Sample.number_is_zero Sample.number_to_string student v
      = Some href.
Proof.
  assert (R1 := reachable_next SubmitForm filled_world_reachable eq_refl).
  assert (R2 := reachable_next (ClickContact 1) R1 eq_refl).
  destruct (contact_and_hire_need_a_profile R2) as (Hn & _).
  eexists.
  exists (contact_link Sample.zoya (js "Acme")).
  split; [exact R2|].
  assert (Hin : In (Navigate (contact_link Sample.zoya (js "Acme")))
                   (log (snd (handle Sample.number_is_zero
                                Sample.number_to_string None (ClickContact 1)
                                (snd (handle Sample.number_is_zero
                                        Sample.number_to_string None
                                        SubmitForm Sample.filled_world)))))).
  { vm_compute. do 10 right. left. reflexivity. }
  split; [exact Hin|]. apply (Hn _ Hin).
Defined.

Lemma mount_throws_iff_malformed_witness :
  fst (mount_effect (initial_world Sample.malformed_store))
  = Throw SyntaxError_thrown.
Proof.
  apply (mount_throws_iff_malformed Sample.malformed_store).
  exists (js "{"). repeat split; [discriminate].
Defined.

Lemma profile_is_set_at_most_once_witness :
  match run Sample.number_is_zero Sample.number_to_string None
            [SubmitForm; ClickHire 0; ClickContact 2] Sample.filled_world with
  | Some w' =>
      (List.length (filter is_set_founder (log w'))
       <= List.length (filter is_set_founder (log Sample.filled_world)) + 1)%nat
  | None => False
  end.
Proof.
  destruct (run Sample.number_is_zero Sample.number_to_string None
                [SubmitForm; ClickHire 0; ClickContact 2] Sample.filled_world)
    as [w'|] eqn:E; [|vm_compute in E; discriminate].
  destruct (@profile_is_set_at_most_once
              Sample.number_is_zero Sample.number_to_string None
              [SubmitForm; ClickHire 0; ClickContact 2] Sample.filled_world
              w' E)
    as (added & El & Hc & _).
  rewrite El, filter_app, length_app. lia.
Defined.

(** C5, at a failing input.  A founder whose company is R&D Labs, typed into
    the form and submitted over an empty store, sees the candidate list.
    Contact on the listed candidate Zoya Khan navigates to a link whose
    recipient is her email, but the ampersand of the company goes into the
    link as it is and ends the body field: the body a mail client reads
    stops at R and does not hold the company.  With the company Acme the
    body holds the name and the company.  And over a store whose profile
    entry holds an object with an own property [toString] as company, the
    mount effect shows the candidate list and Contact builds no link: the
    template literal throws a TypeError and nothing is navigated to. *)
Theorem contact_body_loses_company_with_ampersand :
  let href :=
    js "mailto:zoya@example.com?subject=Collaboration%20with%20Zoya Khan&body=Hi%20Zoya Khan,%0D%0A%0D%0AI%20would%20love%20to%20connect%20regarding%20opportunities%20at%20R&D Labs." in
  let body :=
    js "Hi%20Zoya Khan,%0D%0A%0D%0AI%20would%20love%20to%20connect%20regarding%20opportunities%20at%20R" in
  (exists w : World,
     reachable Sample.number_is_zero Sample.number_to_string None
               Storage.empty w /\
     form w = Sample.rohan_of_r_and_d /\
     view Sample.number_is_zero w = CandidateListView /\
     Json.get (founder w) (js "company") = JString (js "R&D Labs") /\
     nth_error (students w) 1 = Some Sample.zoya /\
     handleContact Sample.number_is_zero Sample.number_to_string
                   Sample.zoya w
     = (Normal tt, emit (Navigate href) w)) /\
  Mailto.recipient href = Some (js "zoya@example.com") /\
  Mailto.header (js "body") href = Some body /\
  includes body (js "Zoya Khan") = true /\
  includes body (js "R&D Labs") = false /\
  (exists acme_body : jsstring,
     Mailto.header (js "body") (contact_link Sample.zoya (js "Acme"))
     = Some acme_body /\
     includes acme_body (js "Zoya Khan") = true /\
     includes acme_body (js "Acme") = true) /\
  (exists w : World,
     mount_effect (initial_world Sample.unprintable_store) = (Normal tt, w) /\
     view Sample.number_is_zero w = CandidateListView /\
     nth_error (students w) 1 = Some Sample.zoya /\
     handleContact Sample.number_is_zero Sample.number_to_string
                   Sample.zoya w
     = (Throw TypeError_thrown, w)).
Proof.
  cbv zeta. split.
  - pose proof (@reach_mount Sample.number_is_zero Sample.number_to_string
                  None Storage.empty _ eq_refl) as R0.
    assert (R1 := reachable_next (ChangeName (js "Rohan")) R0 eq_refl).
    assert (R2 := reachable_next (ChangeCompany (js "R&D Labs")) R1 eq_refl).
    assert (R3 := reachable_next (ChangeEmail (js "r@rd.example")) R2
                    eq_refl).
    assert (R4 := reachable_next SubmitForm R3 eq_refl).
    eexists. split; [exact R4|].
    split; [vm_compute; reflexivity|].
    split; [vm_compute; reflexivity|].
    split; [vm_compute; reflexivity|].
    split; vm_compute; reflexivity.
  - split; [vm_compute; reflexivity|].
    split; [vm_compute; reflexivity|].
    split; [vm_compute; reflexivity|].
    split; [vm_compute; reflexivity|].
    split.
    + eexists. split; [vm_compute; reflexivity|].
      split; vm_compute; reflexivity.
    + eexists. split; [vm_compute; reflexivity|].
      split; [vm_compute; reflexivity|].
      split; vm_compute; reflexivity.
Qed.

Lemma contact_navigates_or_throws_witness :
  handleContact Sample.number_is_zero Sample.number_to_string Sample.zoya
                Sample.unprintable_world
  = (Throw TypeError_thrown, Sample.unprintable_world) /\
  JSON_parse Sample.unprintable_text = Some Sample.unprintable_founder /\
  Mailto.header (js "body") (contact_link Sample.zoya (js "Acme"))
  = Some (js "Hi%20Zoya Khan,%0D%0A%0D%0AI%20would%20love%20to%20connect%20regarding%20opportunities%20at%20Acme.").
Proof.
  destruct (@contact_navigates_or_throws Sample.number_is_zero
              Sample.number_to_string Sample.zoya Sample.unprintable_world)
    as (Hthrow & _).
  split; [apply Hthrow; reflexivity|].
  split; [vm_compute; reflexivity|].
  destruct (@contact_navigates_or_throws Sample.number_is_zero
              Sample.number_to_string Sample.zoya Sample.acme_world)
    as (_ & _ & _ & _ & Hsome).
  destruct (Hsome (js "Acme") eq_refl) as (_ & _ & Hparts).
  destruct (Hparts eq_refl eq_refl eq_refl) as (_ & _ & Hbody & _).
  exact Hbody.
Defined.
